(** * kuna: a client of the Kuna exchange REST API (src/kuna/kuna.py)

    A shallow embedding of [KunaAPI]: the request signing routine
    ([_generate_sign]), the dispatcher ([_request]), the error class
    [APIError], the endpoint methods the properties below talk about and
    the deprecated aliases.

    Python values are modelled as follows.
    - A [str] is the list of its Unicode code points, a [bytes] object the
      list of its octets; both are lists of [N].
    - Exceptions are an error monad; calls to [warnings.warn] and to
      [urlopen] are recorded, in order, in a log of events, so that "no
      request is sent" is a statement about the log.
    - The replies of the network, the reading of the clock and the
      warnings filters are inputs (a [World]); [str.lower] and [json.load],
      whose full tables and grammar are those of the Python runtime, are an
      interface ([PyLib]).
    - [hashlib.sha384] and [hmac.new] follow FIPS 180-4 and RFC 2104. *)

From Stdlib Require Import String Ascii DecimalString.
From Stdlib Require Import List NArith ZArith Bool Lia.
Import ListNotations.

Set Implicit Arguments.

(* ================================================================== *)
(** * Strings and bytes *)

(** A Python [str]: its code points. *)
Definition str := list N.

(** A Python [bytes]: its octets. *)
Definition bytes := list N.

(** A literal of the source, which is ASCII throughout. *)
Definition py (s : string) : str :=
  map N_of_ascii (list_ascii_of_string s).

Fixpoint str_eqb (s t : str) : bool :=
  match s, t with
  | [], [] => true
  | c :: s', d :: t' => N.eqb c d && str_eqb s' t'
  | _, _ => false
  end.

(** [x in xs] for a tuple or a list of strings. *)
Definition str_in (x : str) (xs : list str) : bool := existsb (str_eqb x) xs.

(** [c in s] for a one-character string [c]. *)
Definition char_in (c : N) (s : str) : bool := existsb (N.eqb c) s.

(** [sep.join(parts)]. *)
Fixpoint join (sep : str) (parts : list str) : str :=
  match parts with
  | [] => []
  | [p] => p
  | p :: rest => p ++ sep ++ join sep rest
  end.

(** [s.replace(old, new)] for one-character [old] and [new]. *)
Definition replace_char (old new : N) (s : str) : str :=
  map (fun c => if N.eqb c old then new else c) s.

Definition is_ascii (s : str) : bool := forallb (fun c => N.ltb c 128) s.

(** [str(n)] for an [int]. *)
Definition str_of_int (n : Z) : str := py (NilZero.string_of_int (Z.to_int n)).

(* ================================================================== *)
(** * Codecs *)

(** [s.encode('ascii')]: every code point must be below 128. *)
Fixpoint encode_ascii (s : str) : option bytes :=
  match s with
  | [] => Some []
  | c :: s' =>
      if N.ltb c 128
      then match encode_ascii s' with
           | Some bs => Some (c :: bs)
           | None => None
           end
      else None
  end.

(** UTF-8 of one code point; surrogates (and anything past U+10FFFF)
    cannot be encoded under [errors='strict']. *)
Definition utf8_char (c : N) : option bytes :=
  if N.ltb c 0x80 then Some [c]
  else if N.ltb c 0x800 then
    Some [N.lor 0xC0 (N.shiftr c 6); N.lor 0x80 (N.land c 0x3F)]
  else if N.leb 0xD800 c && N.leb c 0xDFFF then None
  else if N.ltb c 0x10000 then
    Some [N.lor 0xE0 (N.shiftr c 12);
          N.lor 0x80 (N.land (N.shiftr c 6) 0x3F);
          N.lor 0x80 (N.land c 0x3F)]
  else if N.ltb c 0x110000 then
    Some [N.lor 0xF0 (N.shiftr c 18);
          N.lor 0x80 (N.land (N.shiftr c 12) 0x3F);
          N.lor 0x80 (N.land (N.shiftr c 6) 0x3F);
          N.lor 0x80 (N.land c 0x3F)]
  else None.

(** [s.encode()], that is UTF-8, strict. *)
Fixpoint encode_utf8 (s : str) : option bytes :=
  match s with
  | [] => Some []
  | c :: s' =>
      match utf8_char c, encode_utf8 s' with
      | Some b, Some bs => Some (b ++ bs)
      | _, _ => None
      end
  end.

(* ================================================================== *)
(** * hashlib.sha384 (FIPS 180-4) *)

Module SHA384.

Local Open Scope N_scope.

Definition mask64 : N := 0xFFFFFFFFFFFFFFFF.
Definition w64 (x : N) : N := N.land x mask64.
Definition add64 (x y : N) : N := w64 (x + y).
Definition rotr (n x : N) : N :=
  N.lor (N.shiftr x n) (w64 (N.shiftl x (64 - n))).

Definition Ch (x y z : N) : N := N.lxor (N.land x y) (N.ldiff z x).
Definition Maj (x y z : N) : N :=
  N.lxor (N.lxor (N.land x y) (N.land x z)) (N.land y z).
Definition bSig0 (x : N) : N :=
  N.lxor (N.lxor (rotr 28 x) (rotr 34 x)) (rotr 39 x).
Definition bSig1 (x : N) : N :=
  N.lxor (N.lxor (rotr 14 x) (rotr 18 x)) (rotr 41 x).
Definition sSig0 (x : N) : N :=
  N.lxor (N.lxor (rotr 1 x) (rotr 8 x)) (N.shiftr x 7).
Definition sSig1 (x : N) : N :=
  N.lxor (N.lxor (rotr 19 x) (rotr 61 x)) (N.shiftr x 6).

(** The eighty round constants of SHA-384 and SHA-512. *)
Definition K : list N :=
[ 0x428a2f98d728ae22; 0x7137449123ef65cd; 0xb5c0fbcfec4d3b2f; 0xe9b5dba58189dbbc;
  0x3956c25bf348b538; 0x59f111f1b605d019; 0x923f82a4af194f9b; 0xab1c5ed5da6d8118;
  0xd807aa98a3030242; 0x12835b0145706fbe; 0x243185be4ee4b28c; 0x550c7dc3d5ffb4e2;
  0x72be5d74f27b896f; 0x80deb1fe3b1696b1; 0x9bdc06a725c71235; 0xc19bf174cf692694;
  0xe49b69c19ef14ad2; 0xefbe4786384f25e3; 0x0fc19dc68b8cd5b5; 0x240ca1cc77ac9c65;
  0x2de92c6f592b0275; 0x4a7484aa6ea6e483; 0x5cb0a9dcbd41fbd4; 0x76f988da831153b5;
  0x983e5152ee66dfab; 0xa831c66d2db43210; 0xb00327c898fb213f; 0xbf597fc7beef0ee4;
  0xc6e00bf33da88fc2; 0xd5a79147930aa725; 0x06ca6351e003826f; 0x142929670a0e6e70;
  0x27b70a8546d22ffc; 0x2e1b21385c26c926; 0x4d2c6dfc5ac42aed; 0x53380d139d95b3df;
  0x650a73548baf63de; 0x766a0abb3c77b2a8; 0x81c2c92e47edaee6; 0x92722c851482353b;
  0xa2bfe8a14cf10364; 0xa81a664bbc423001; 0xc24b8b70d0f89791; 0xc76c51a30654be30;
  0xd192e819d6ef5218; 0xd69906245565a910; 0xf40e35855771202a; 0x106aa07032bbd1b8;
  0x19a4c116b8d2d0c8; 0x1e376c085141ab53; 0x2748774cdf8eeb99; 0x34b0bcb5e19b48a8;
  0x391c0cb3c5c95a63; 0x4ed8aa4ae3418acb; 0x5b9cca4f7763e373; 0x682e6ff3d6b2b8a3;
  0x748f82ee5defb2fc; 0x78a5636f43172f60; 0x84c87814a1f0ab72; 0x8cc702081a6439ec;
  0x90befffa23631e28; 0xa4506cebde82bde9; 0xbef9a3f7b2c67915; 0xc67178f2e372532b;
  0xca273eceea26619c; 0xd186b8c721c0c207; 0xeada7dd6cde0eb1e; 0xf57d4f7fee6ed178;
  0x06f067aa72176fba; 0x0a637dc5a2c898a6; 0x113f9804bef90dae; 0x1b710b35131c471b;
  0x28db77f523047d84; 0x32caab7b40c72493; 0x3c9ebe0a15c9bebc; 0x431d67c49c100d4c;
  0x4cc5d4becb3e42b6; 0x597f299cfc657e2a; 0x5fcb6fab3ad6faec; 0x6c44198c4a475817 ].

(** The eight working variables, also the shape of a hash value. *)
Record regs : Type := Regs {
  ra : N; rb : N; rc : N; rd : N; re : N; rf : N; rg : N; rh : N
}.

(** Initial hash value of SHA-384. *)
Definition H0 : regs :=
  Regs 0xcbbb9d5dc1059ed8 0x629a292a367cd507 0x9159015a3070dd17
       0x152fecd8f70e5939 0x67332667ffc00b31 0x8eb44a8768581511
       0xdb0c2e0d64f98fa7 0x47b5481dbefa4fa4.

(** One round.  [win] holds the sixteen schedule words W(t) .. W(t+15);
    the round consumes W(t) and appends W(t+16). *)
Definition round (st : regs * list N) (k : N) : regs * list N :=
  let '(r, win) := st in
  let wt := nth 0 win 0 in
  let t1 := add64 (add64 (add64 (add64 (rh r) (bSig1 (re r)))
                                (Ch (re r) (rf r) (rg r))) k) wt in
  let t2 := add64 (bSig0 (ra r)) (Maj (ra r) (rb r) (rc r)) in
  let wnew := add64 (add64 (add64 (sSig1 (nth 14 win 0)) (nth 9 win 0))
                           (sSig0 (nth 1 win 0))) wt in
  (Regs (add64 t1 t2) (ra r) (rb r) (rc r) (add64 (rd r) t1) (re r) (rf r) (rg r),
   tl win ++ [wnew]).

Definition add_regs (x y : regs) : regs :=
  Regs (add64 (ra x) (ra y)) (add64 (rb x) (rb y)) (add64 (rc x) (rc y))
       (add64 (rd x) (rd y)) (add64 (re x) (re y)) (add64 (rf x) (rf y))
       (add64 (rg x) (rg y)) (add64 (rh x) (rh y)).

(** Big-endian value of a run of octets. *)
Definition be_value (bs : bytes) : N :=
  fold_left (fun acc b => N.lor (N.shiftl acc 8) b) bs 0.

(** The words of a block, eight octets each. *)
Fixpoint words_of (n : nat) (bs : bytes) : list N :=
  match n with
  | O => []
  | S n' => be_value (firstn 8 bs) :: words_of n' (skipn 8 bs)
  end.

Definition compress (h : regs) (block : bytes) : regs :=
  add_regs h (fst (fold_left round K (h, words_of 16 block))).

Fixpoint blocks (n : nat) (h : regs) (bs : bytes) : regs :=
  match n with
  | O => h
  | S n' => blocks n' (compress h (firstn 128 bs)) (skipn 128 bs)
  end.

(** Octet [i] (0 is the least significant) of a word. *)
Definition octet (i x : N) : N := N.land (N.shiftr x (8 * i)) 0xFF.

Definition be_bytes8 (x : N) : bytes :=
  [octet 7 x; octet 6 x; octet 5 x; octet 4 x;
   octet 3 x; octet 2 x; octet 1 x; octet 0 x].

(** Padding: a one bit, zeros up to 112 modulo 128, and the length in
    bits on 128 bits. *)
Definition pad (m : bytes) : bytes :=
  let len := N.of_nat (length m) in
  let zeros := N.to_nat ((128 - (len + 17) mod 128) mod 128) in
  m ++ [0x80] ++ repeat 0 zeros
    ++ be_bytes8 (N.shiftr (8 * len) 64) ++ be_bytes8 (w64 (8 * len)).

(** The first six words of the final hash value. *)
Definition output (h : regs) : bytes :=
  be_bytes8 (ra h) ++ be_bytes8 (rb h) ++ be_bytes8 (rc h) ++
  be_bytes8 (rd h) ++ be_bytes8 (re h) ++ be_bytes8 (rf h).

Definition digest (m : bytes) : bytes :=
  let p := pad m in
  output (blocks (Nat.div (length p) 128) H0 p).

Definition block_size : nat := 128.

End SHA384.

(* ================================================================== *)
(** * hmac (RFC 2104) *)

(** What [hmac.new] needs of a [digestmod]. *)
Record digestmod : Type := Digestmod {
  dm_digest : bytes -> bytes;
  dm_block_size : nat
}.

(** [hashlib.sha384]. *)
Definition sha384 : digestmod := Digestmod SHA384.digest SHA384.block_size.

Definition xor_pad (c : N) (key : bytes) : bytes := map (N.lxor c) key.

(** [hmac.new(key, msg, digestmod).digest()]. *)
Definition hmac_digest (key msg : bytes) (d : digestmod) : bytes :=
  let key := if Nat.ltb (dm_block_size d) (length key)
             then dm_digest d key else key in
  let key := key ++ repeat 0%N (dm_block_size d - length key) in
  dm_digest d (xor_pad 0x5C key ++ dm_digest d (xor_pad 0x36 key ++ msg)).

Definition hex_digit (d : N) : N :=
  nth (N.to_nat d) (py "0123456789abcdef") 0%N.

(** [.hexdigest()]: two lowercase hexadecimal digits per octet. *)
Definition hex_of_bytes (bs : bytes) : str :=
  flat_map (fun b => [hex_digit (N.div b 16); hex_digit (N.modulo b 16)]) bs.

Definition hmac_hexdigest (key msg : bytes) (d : digestmod) : str :=
  hex_of_bytes (hmac_digest key msg d).


(* ================================================================== *)
(** * Python values *)

(** A Python [float] as [repr] tells it apart: [nan], an infinity, or a
    sign with the shortest decimal that reads back as the same float, as
    its digits [d1 d2 ...] (the numeral of [digits]) and the place [decpt]
    of the point, for the magnitude [0.d1d2... * 10^decpt].  Zero has the
    digit [0] and [decpt] 1.  The arithmetic of floats is not modelled. *)
Inductive pyfloat : Type :=
| FNaN
| FInf (negative : bool)
| FFinite (negative : bool) (digits : N) (decpt : Z).

(** The objects that travel through the client: [None], [bool], [int],
    [float], [str], [list] and [dict] with string keys.  A [dict] keeps
    its keys in insertion order, which [json.dumps] follows, so it is an
    association list. *)
#[warnings="-register-all"]
Inductive value : Type :=
| VNone
| VBool (b : bool)
| VInt (n : Z)
| VFloat (f : pyfloat)
| VStr (s : str)
| VList (items : list value)
| VDict (items : list (str * value)).

(** [d.get(k)], also the test [k in d]. *)
Fixpoint dict_get {A : Type} (k : str) (d : list (str * A)) : option A :=
  match d with
  | [] => None
  | (k', v) :: d' => if str_eqb k' k then Some v else dict_get k d'
  end.

(** [d[k] = v]: the value of an existing key is replaced in place, a new
    key goes last. *)
Fixpoint dict_set {A : Type} (k : str) (v : A) (d : list (str * A))
  : list (str * A) :=
  match d with
  | [] => [(k, v)]
  | (k', v') :: d' =>
      if str_eqb k' k then (k, v) :: d' else (k', v') :: dict_set k v d'
  end.

(* ================================================================== *)
(** * json.dumps *)

Definition QUOTE : N := 34.
Definition BACKSLASH : N := 92.

Definition hex4 (n : N) : str :=
  [hex_digit (N.modulo (N.div n 4096) 16); hex_digit (N.modulo (N.div n 256) 16);
   hex_digit (N.modulo (N.div n 16) 16); hex_digit (N.modulo n 16)].

Definition u_escape (n : N) : str := BACKSLASH :: py "u" ++ hex4 n.

(** One character of a string under [ensure_ascii=True]: the quote, the
    backslash and everything outside [' ' .. '~'] are escaped, code points
    past U+FFFF as a surrogate pair. *)
Definition json_escape_char (c : N) : str :=
  if N.eqb c QUOTE then [BACKSLASH; QUOTE]
  else if N.eqb c BACKSLASH then [BACKSLASH; BACKSLASH]
  else if N.eqb c 8 then BACKSLASH :: py "b"
  else if N.eqb c 12 then BACKSLASH :: py "f"
  else if N.eqb c 10 then BACKSLASH :: py "n"
  else if N.eqb c 13 then BACKSLASH :: py "r"
  else if N.eqb c 9 then BACKSLASH :: py "t"
  else if N.leb 0x20 c && N.leb c 0x7E then [c]
  else if N.ltb c 0x10000 then u_escape c
  else
    let n := (c - 0x10000)%N in
    u_escape (N.lor 0xD800 (N.land (N.shiftr n 10) 0x3FF))
      ++ u_escape (N.lor 0xDC00 (N.land n 0x3FF)).

Definition json_string (s : str) : str :=
  QUOTE :: flat_map json_escape_char s ++ [QUOTE].

(** The exponent of [repr]: a sign and at least two digits. *)
Definition exponent_text (e : Z) : str :=
  (if Z.ltb e 0 then py "-" else py "+")
  ++ (if Z.ltb (Z.abs e) 10 then py "0" else []) ++ str_of_int (Z.abs e).

(** [float.__repr__] of a finite float: exponent form when at least four
    zeros separate the point from the first digit or when more than
    sixteen digits come before the point, and else the plain form, which
    always shows a point with a digit after it. *)
Definition float_repr (negative : bool) (digits : N) (decpt : Z) : str :=
  let ds := str_of_int (Z.of_N digits) in
  let n := Z.of_nat (length ds) in
  (if negative then py "-" else [])
  ++ (if Z.leb decpt (-4) || Z.ltb 16 decpt then
        firstn 1 ds ++ (if Z.ltb 1 n then py "." ++ skipn 1 ds else [])
        ++ py "e" ++ exponent_text (decpt - 1)
      else if Z.leb decpt 0 then
        py "0." ++ repeat 48%N (Z.to_nat (- decpt)) ++ ds
      else if Z.leb n decpt then
        ds ++ repeat 48%N (Z.to_nat (decpt - n)) ++ py ".0"
      else
        firstn (Z.to_nat decpt) ds ++ py "." ++ skipn (Z.to_nat decpt) ds).

(** What [json.dumps] writes for a float ([allow_nan] is on). *)
Definition floatstr (f : pyfloat) : str :=
  match f with
  | FNaN => py "NaN"
  | FInf false => py "Infinity"
  | FInf true => py "-Infinity"
  | FFinite negative digits decpt => float_repr negative digits decpt
  end.

(** [json.dumps(v)] with the default separators [', '] and [': ']. *)
Fixpoint json_dumps (v : value) : str :=
  match v with
  | VNone => py "null"
  | VBool true => py "true"
  | VBool false => py "false"
  | VInt n => str_of_int n
  | VFloat f => floatstr f
  | VStr s => json_string s
  | VList items =>
      py "[" ++ join (py ", ") (map json_dumps items) ++ py "]"
  | VDict items =>
      py "{" ++ join (py ", ")
                  (map (fun kv => json_string (fst kv) ++ py ": " ++ json_dumps (snd kv))
                       items)
             ++ py "}"
  end.

(* ================================================================== *)
(** * urllib.parse.urlencode *)

Definition ALWAYS_SAFE : str :=
  py "ABCDEFGHIJKLMNOPQRSTUVWXYZabcdefghijklmnopqrstuvwxyz0123456789_.-~".

Definition HEX_DIGIT (d : N) : N :=
  nth (N.to_nat d) (py "0123456789ABCDEF") 0%N.

(** [quote_from_bytes(bs, safe)]: an octet that is not safe becomes
    [%XX]. *)
Definition quote_from_bytes (bs : bytes) (safe : str) : str :=
  let safe := ALWAYS_SAFE ++ filter (fun c => N.ltb c 128) safe in
  flat_map (fun b => if char_in b safe then [b]
                     else [37%N; HEX_DIGIT (N.div b 16); HEX_DIGIT (N.modulo b 16)])
           bs.

(** [quote(s, safe)] on a [str]: UTF-8 first ([None]: the string cannot
    be encoded, [UnicodeEncodeError]). *)
Definition quote (s safe : str) : option str :=
  match s with
  | [] => Some s
  | _ => match encode_utf8 s with
         | Some bs => Some (quote_from_bytes bs safe)
         | None => None
         end
  end.

Definition SPACE : N := 32.
Definition PLUS : N := 43.

(** [quote_plus(s, safe)]. *)
Definition quote_plus (s safe : str) : option str :=
  if negb (char_in SPACE s) then quote s safe
  else match quote s (safe ++ [SPACE]) with
       | Some q => Some (replace_char SPACE PLUS q)
       | None => None
       end.

(** [urlencode(query)] for a [dict] of strings. *)
Fixpoint urlencode_pairs (query : list (str * str)) : option (list str) :=
  match query with
  | [] => Some []
  | (k, v) :: rest =>
      match quote_plus k [], quote_plus v [], urlencode_pairs rest with
      | Some k', Some v', Some l => Some ((k' ++ py "=" ++ v') :: l)
      | _, _, _ => None
      end
  end.

Definition urlencode (query : list (str * str)) : option str :=
  match urlencode_pairs query with
  | Some l => Some (join (py "&") l)
  | None => None
  end.

(* ================================================================== *)
(** * Exceptions, events and the world *)

(** The argument an [APIError] carries ([Exception.args[0]]): an object,
    or the [repr] of one, which is kept symbolic. *)
Inductive message : Type :=
| MsgObj (v : value)
| MsgRepr (v : value).

(** The categories of the warnings the module issues: [warnings.warn]
    without a category is a [UserWarning]. *)
Inductive category : Type := UserWarning | DeprecationWarning.

(** The exceptions the modelled code raises.  [APIError] is the one class
    the module declares; [Warning c text] is the warning [c(text)] raised
    as an exception. *)
Inductive exn : Type :=
| APIError (m : message)
| UnicodeEncodeError
| UnicodeDecodeError
| AttributeError
| TypeError
| NotImplementedError
| JSONDecodeError
| Warning (c : category) (text : str)
| OtherError (name : str).

(** The arguments [_request] gives to [urllib.request.Request].  A header
    is [None] when the client stores a missing key in it. *)
Record Request : Type := mkRequest {
  req_url : str;
  req_data : bytes;
  req_headers : list (str * option str);
  req_method : str
}.

(** What [urlopen(req)] does: it returns a response, raises [HTTPError]
    (a status outside 2xx), or raises something else. *)
Inductive reply : Type :=
| Response (body : bytes)
| HTTPError (code : N) (body : bytes)
| Failure (e : exn).

(** The inputs the code reads from outside: the network, the clock
    ([int(time.time() * 1000)]) and the warnings filters in force when the
    method is entered, which turn a warning into an exception (action
    [error]) or not. *)
Record World : Type := mkWorld {
  urlopen : Request -> reply;
  time_ms : Z;
  warning_is_error : category -> str -> bool
}.

(** What the code does to the outside, in order. *)
Inductive event : Type :=
| Warn (c : category) (text : str)
| FilterWarnings (action : str)
| Urlopen (req : Request).

(** [str.lower] follows the Unicode case tables and [json.load] the JSON
    grammar; the client only relies on what is stated here.  [json_load]
    reads the body of a reply: it gives the object [json.load] returns, or
    the exception it raises ([JSONDecodeError] on text that is not JSON,
    [UnicodeDecodeError] on octets that are not text). *)
Class PyLib : Type := {
  lower : str -> str;
  lower_empty : lower [] = [];
  json_load : bytes -> exn + value
}.

(* ================================================================== *)
(** * The monads of the embedding *)

(** A computation that returns or raises. *)
Definition Exc (A : Type) : Type := (exn + A)%type.

(** A method: it reads the world, logs its events and returns or raises. *)
Definition M (A : Type) : Type := World -> list event * Exc A.

Class Monad (m : Type -> Type) : Type := {
  ret : forall {A}, A -> m A;
  bind : forall {A B}, m A -> (A -> m B) -> m B;
  raise : forall {A}, exn -> m A
}.

#[global] Instance Monad_Exc : Monad Exc := {
  ret := fun _ a => inr a;
  bind := fun _ _ c k => match c with inl e => inl e | inr a => k a end;
  raise := fun _ e => inl e
}.

#[global] Instance Monad_M : Monad M := {
  ret := fun _ a _ => ([], inr a);
  bind := fun _ _ c k w =>
    match c w with
    | (l, inl e) => (l, inl e)
    | (l, inr a) => let '(l', r) := k a w in (l ++ l', r)
    end;
  raise := fun _ e _ => ([], inl e)
}.

Notation "x <- c1 ;; c2" := (bind c1 (fun x => c2))
  (at level 61, c1 at next level, right associativity).
Notation "c1 ;; c2" := (bind c1 (fun _ => c2))
  (at level 61, right associativity).

(** A pure computation inside a method. *)
Definition lift {A : Type} (r : Exc A) : M A := fun _ => ([], r).

(** [None] of a codec is the exception [e]. *)
Definition orraise {A : Type} (e : exn) (o : option A) : Exc A :=
  match o with Some a => inr a | None => inl e end.

Definition log (ev : event) : M unit := fun _ => ([ev], inr tt).

(** [warnings.warn(text, c)]: the call is logged; under a filter with
    action [error] it raises the warning. *)
Definition warn (c : category) (text : str) : M unit :=
  fun w => ([Warn c text],
            if warning_is_error w c text then inl (Warning c text) else inr tt).

Definition now_ms : M Z := fun w => ([], inr (time_ms w)).
Definition call_urlopen (req : Request) : M reply :=
  fun w => ([Urlopen req], inr (urlopen w req)).

Definition events {A : Type} (c : M A) (w : World) : list event := fst (c w).
Definition outcome {A : Type} (c : M A) (w : World) : Exc A := snd (c w).

(* ================================================================== *)
(** * Module constants *)

Definition LF : N := 10.

Definition KEYS_NEED_MESSAGE : str :=
  [LF] ++ py "    API initialized without public or private key. Only Public API is available."
  ++ [LF] ++ py "    Get keys from " ++ [QUOTE]
  ++ py "https://kuna.io/settings/api_tokens" ++ [QUOTE] ++ py "."
  ++ [LF] ++ py "    ".

Definition DEFAULT_HEADERS : list (str * option str) :=
  [ (py "accept", Some (py "application/json"));
    (py "content-type", Some (py "application/json"));
    (py "user-agent", Some (py "python-kuna/0.4.0")) ].

(* ================================================================== *)
(** * class APIError *)

(** What [APIError(...)] is built from: the [HTTPError] caught by
    [_request] (with the body of the reply), or any other object. *)
Inductive api_error_arg : Type :=
| OfHTTPError (body : bytes)
| OfValue (v : value).

Section Client.

Context {lib : PyLib}.

(** [APIError.__init__]: reading an [HTTPError] as JSON may itself raise,
    and then no [APIError] comes into being: the exception of [json.load]
    leaves the constructor. *)
Definition APIError_init (result : api_error_arg) : Exc exn :=
  result <- match result with
            | OfHTTPError body => json_load body
            | OfValue v => ret v
            end ;;
  let message :=
    match result with
    | VDict d => match dict_get (py "messages") d with
                 | Some m => MsgObj m
                 | None => MsgRepr result
                 end
    | VStr s => MsgObj (VStr s)
    | _ => MsgRepr result
    end in
  ret (APIError message).

(* ================================================================== *)
(** * class KunaAPI *)

Record KunaAPI : Type := mkKunaAPI {
  public_key : option str;
  private_key : option str;
  endpoint : str;
  prefix : str
}.

Definition is_None {A : Type} (o : option A) : bool :=
  match o with None => true | Some _ => false end.

(** [_check_keys]: with [error=True] the exception is built and dropped,
    there is no [raise] in front of it. *)
Definition _check_keys (self : KunaAPI) (error : bool) : M unit :=
  if is_None (public_key self) || is_None (private_key self) then
    if error then
      _ <- lift (APIError_init (OfValue (VStr KEYS_NEED_MESSAGE))) ;;
      ret tt
    else warn UserWarning KEYS_NEED_MESSAGE
  else ret tt.

Definition __init__ (public_key private_key : option str)
    (disable_warnings : bool) : M KunaAPI :=
  let self := mkKunaAPI public_key private_key
                        (py "https://api.kuna.io") (py "/v3") in
  _check_keys self false ;;
  (if disable_warnings then log (FilterWarnings (py "ignore")) else ret tt) ;;
  ret self.

(** [_generate_sign(uri, body, nonce)]; the payload is encoded before the
    key is looked at. *)
Definition _generate_sign (self : KunaAPI) (uri body nonce : str) : Exc str :=
  let payload := uri ++ nonce ++ body in
  payload_bin <- orraise UnicodeEncodeError (encode_ascii payload) ;;
  private_key <- orraise AttributeError (private_key self) ;;
  private_key_bin <- orraise UnicodeEncodeError (encode_ascii private_key) ;;
  ret (hmac_hexdigest private_key_bin payload_bin sha384).

(** [bool(d)] of a [dict]. *)
Definition nonempty {A : Type} (l : list A) : bool :=
  match l with [] => false | _ :: _ => true end.

(** [_request(path, args, body, is_user_method)]. *)
Definition _request (self : KunaAPI) (path : str) (args : list (str * str))
    (body : value) (is_user_method : bool) : M value :=
  path <- (if nonempty args
           then q <- lift (orraise UnicodeEncodeError (urlencode args)) ;;
                ret (path ++ py "?" ++ q)
           else ret path) ;;
  let uri := prefix self ++ path in
  let url := endpoint self ++ uri in
  let headers := DEFAULT_HEADERS in
  let body := json_dumps body in
  mh <- (if is_user_method then
           _check_keys self true ;;
           ms <- now_ms ;;
           let nonce := str_of_int ms in
           let headers := dict_set (py "kun-nonce") (Some nonce) headers in
           let headers := dict_set (py "kun-apikey") (public_key self) headers in
           sign <- lift (_generate_sign self uri body nonce) ;;
           ret (py "POST", dict_set (py "kun-signature") (Some sign) headers)
         else ret (py "GET", headers)) ;;
  data <- lift (orraise UnicodeEncodeError (encode_utf8 body)) ;;
  let req := mkRequest url data (snd mh) (fst mh) in
  r <- call_urlopen req ;;
  match r with
  | Response resp => lift (json_load resp)
  | HTTPError _ err => e <- lift (APIError_init (OfHTTPError err)) ;; raise e
  | Failure e => raise e
  end.

(* ------------------------------------------------------------------ *)
(** ** Public API *)

Definition timestamp (self : KunaAPI) : M value :=
  _request self (py "/timestamp") [] (VDict []) false.

(** The items of a list as [','.join] wants them: all of them strings,
    or it raises [TypeError]. *)
Fixpoint strings_of (items : list value) : Exc (list str) :=
  match items with
  | [] => inr []
  | VStr s :: rest =>
      match strings_of rest with
      | inr l => inr (s :: l)
      | inl e => inl e
      end
  | _ :: _ => inl TypeError
  end.

(** [tickers(symbols)]: a [str], a [list], or anything else, [None]
    included. *)
Definition tickers (self : KunaAPI) (symbols : value) : M value :=
  args <- match symbols with
          | VStr s => ret [(py "symbols", s)]
          | VList items =>
              parts <- lift (strings_of items) ;;
              ret [(py "symbols", join (py ",") parts)]
          | _ => ret [(py "symbols", py "ALL")]
          end ;;
  _request self (py "/tickers") args (VDict []) false.

Definition book (self : KunaAPI) (market : str) : M value :=
  _request self (py "/book/" ++ market) [] (VDict []) false.

(** [history] takes any arguments and is not implemented. *)
Definition history (self : KunaAPI) (args : list value) : M value :=
  raise NotImplementedError.

(* ------------------------------------------------------------------ *)
(** ** Private API *)

Definition http_test (self : KunaAPI) : M value :=
  _request self (py "/http_test") [] (VDict []) true.

Definition auth_me (self : KunaAPI) : M value :=
  _request self (py "/auth/me") [] (VDict []) true.

(** [bool(s)] of an optional string: [None] and [''] are false. *)
Definition truthy (s : option str) : bool :=
  match s with Some (_ :: _) => true | _ => false end.

Definition fmt (s : option str) : str :=
  match s with Some s => s | None => py "None" end.

Definition auth_r_orders (self : KunaAPI) (market : option str) : M value :=
  let path := if truthy market then py "/auth/r/orders/" ++ fmt market
              else py "/auth/r/orders" in
  _request self path [] (VDict []) true.

Definition auth_r_orders_hist (self : KunaAPI) (market : option str) : M value :=
  let path := if truthy market then py "/auth/r/orders/" ++ fmt market ++ py "/hist"
              else py "/auth/r/orders/hist" in
  _request self path [] (VDict []) true.

Definition available_types : list str :=
  [py "limit"; py "market"; py "market_by_quote"; py "limit_stop_loss"].

(** [str(available_types)], as the f-string prints the tuple. *)
Definition available_types_str : str :=
  py "('limit', 'market', 'market_by_quote', 'limit_stop_loss')".

Definition auth_w_order_submit (self : KunaAPI) (symbol type : str)
    (amount price stop_price : value) : M value :=
  if negb (str_in (lower type) available_types) then
    e <- lift (APIError_init (OfValue (VStr
           ([QUOTE] ++ type ++ [QUOTE] ++ py " is not one of available types "
            ++ available_types_str)))) ;;
    raise e
  else
    let body := VDict [ (py "symbol", VStr symbol); (py "type", VStr type);
                        (py "amount", amount); (py "price", price);
                        (py "stop_price", stop_price) ] in
    _request self (py "/auth/w/order/submit") [] body true.

Definition order_cancel (self : KunaAPI) (order_id : value) : M value :=
  _request self (py "/order/cancel") [] (VDict [(py "order_id", order_id)]) true.

(** [assets_history(type=None)]: [type.lower()] comes first, and [None]
    has no [lower]. *)
Definition assets_history (self : KunaAPI) (type : option str) : M value :=
  lowered <- lift (match type with
                   | Some s => ret (lower s)
                   | None => raise AttributeError
                   end) ;;
  if negb (str_in lowered [py "withdraws"; py "deposits"]) then
    e <- lift (APIError_init (OfValue (VStr
           (py "type must by 'withdraws', 'deposits' or None")))) ;;
    raise e
  else
    let path := if truthy type then py "/auth/assets-history/" ++ fmt type
                else py "/auth/assets-history" in
    _request self path [] (VDict []) true.

(* ------------------------------------------------------------------ *)
(** ** Old methods

    None of them has a [return]: each yields [None] when its call comes
    back. *)

Definition get_server_time (self : KunaAPI) : M value :=
  warn DeprecationWarning (py "Better use: " ++ [QUOTE] ++ py "api.timestamp()" ++ [QUOTE]) ;;
  timestamp self ;;
  ret VNone.

Definition get_recent_market_data (self : KunaAPI) (market : value) : M value :=
  warn DeprecationWarning (py "Better use: " ++ [QUOTE] ++ py "api.tickers(market)" ++ [QUOTE]) ;;
  tickers self market ;;
  ret VNone.

(** [self.book()] is called without [market], the one parameter [book]
    requires: the call itself raises [TypeError]. *)
Definition get_order_book (self : KunaAPI) (market : str) : M value :=
  warn DeprecationWarning (py "Better use: " ++ [QUOTE] ++ py "api.book(market)" ++ [QUOTE]) ;;
  (raise TypeError : M value) ;;
  ret VNone.

Definition get_trades_history (self : KunaAPI) (market : value) : M value :=
  warn DeprecationWarning (py "Better use: " ++ [QUOTE] ++ py "api.history(market)" ++ [QUOTE]) ;;
  history self [] ;;
  ret VNone.

Definition get_user_account_info (self : KunaAPI) : M value :=
  warn DeprecationWarning (py "Better use: " ++ [QUOTE] ++ py "api.auth_me()" ++ [QUOTE]) ;;
  auth_me self ;;
  ret VNone.

Definition get_orders (self : KunaAPI) (market : option str) : M value :=
  warn DeprecationWarning (py "Better use: " ++ [QUOTE] ++ py "api.auth_r_orders(market)" ++ [QUOTE]) ;;
  auth_r_orders self market ;;
  ret VNone.

Definition put_order (self : KunaAPI) (side : str) (amount : Z)
    (symbol : str) (price : value) : M value :=
  warn DeprecationWarning (py "Better use: " ++ [QUOTE] ++ py "api.auth_w_order_submit()" ++ [QUOTE]) ;;
  let amount := if str_eqb (lower side) (py "buy") then Z.abs amount
                else (-1 * Z.abs amount)%Z in
  auth_w_order_submit self symbol (py "limit") (VInt amount) price VNone ;;
  ret VNone.

Definition cancel_order (self : KunaAPI) (order_id : value) : M value :=
  warn DeprecationWarning (py "Better use: " ++ [QUOTE] ++ py "api.order_cancel(order_id)" ++ [QUOTE]) ;;
  order_cancel self order_id ;;
  ret VNone.

Definition get_trade_history (self : KunaAPI) (market : option str) : M value :=
  warn DeprecationWarning (py "Better use: " ++ [QUOTE] ++ py "api.auth_r_orders_hist(market)" ++ [QUOTE]) ;;
  auth_r_orders_hist self market ;;
  ret VNone.

End Client.

(* ================================================================== *)
(** * A concrete runtime for examples

    [ascii_lower] is [str.lower] on ASCII text.  [decode_json] is
    [json.load] on a fragment of the bodies: those it reads as UTF-8 (no
    byte order mark, no NUL among the first octets), with arrays and
    objects nested at most [max_depth] deep, integers of at most
    [max_int_digits] digits, and numbers with a fraction or an exponent of
    at most fifteen significant digits and a magnitude between 1e-291 and
    1e290, where the digits written are the digits of the float.  On a body
    outside the fragment it answers [OtherError].  They instantiate [PyLib]
    where a statement is run on a concrete input; the theorems hold for
    every [PyLib]. *)

Definition ascii_lower (s : str) : str :=
  map (fun c => if N.leb 65 c && N.leb c 90 then (c + 32)%N else c) s.

Module Json.

Local Open Scope N_scope.

(** The outcome of reading a piece of text. *)
Inductive parse (A : Type) : Type :=
| Parsed (a : A) (rest : str)
| Invalid
| Unsupported.

Arguments Parsed {A} a rest.
Arguments Invalid {A}.
Arguments Unsupported {A}.

Definition max_depth : nat := 100.
Definition max_int_digits : nat := 4300.

Definition andthen {A B : Type} (p : parse A) (k : A -> str -> parse B) : parse B :=
  match p with
  | Parsed a rest => k a rest
  | Invalid => Invalid
  | Unsupported => Unsupported
  end.

(** [detect_encoding] answers [utf-8]. *)
Definition reads_as_utf8 (b : bytes) : bool :=
  match b with
  | 0xEF :: 0xBB :: 0xBF :: _ => false
  | 0xFF :: 0xFE :: _ => false
  | 0xFE :: 0xFF :: _ => false
  | [b0; b1] => negb (N.eqb b0 0) && negb (N.eqb b1 0)
  | b0 :: b1 :: _ :: _ :: _ => negb (N.eqb b0 0) && negb (N.eqb b1 0)
  | _ => true
  end.

Definition is_cont (b : N) : bool := N.leb 0x80 b && N.leb b 0xBF.

Definition low6 (b : N) : N := N.land b 0x3F.

(** [b.decode('utf-8', 'surrogatepass')]; [None] is [UnicodeDecodeError]. *)
Fixpoint decode_utf8 (fuel : nat) (b : bytes) : option str :=
  match fuel, b with
  | _, [] => Some []
  | O, _ => None
  | S fuel', b0 :: r0 =>
      if N.ltb b0 0x80 then
        option_map (cons b0) (decode_utf8 fuel' r0)
      else if N.leb 0xC2 b0 && N.leb b0 0xDF then
        match r0 with
        | b1 :: r1 =>
            if is_cont b1
            then option_map (cons (N.lor (N.shiftl (N.land b0 0x1F) 6) (low6 b1)))
                            (decode_utf8 fuel' r1)
            else None
        | _ => None
        end
      else if N.leb 0xE0 b0 && N.leb b0 0xEF then
        match r0 with
        | b1 :: b2 :: r2 =>
            if is_cont b1 && is_cont b2 && (negb (N.eqb b0 0xE0) || N.leb 0xA0 b1)
            then option_map
                   (cons (N.lor (N.shiftl (N.land b0 0x0F) 12)
                                (N.lor (N.shiftl (low6 b1) 6) (low6 b2))))
                   (decode_utf8 fuel' r2)
            else None
        | _ => None
        end
      else if N.leb 0xF0 b0 && N.leb b0 0xF4 then
        match r0 with
        | b1 :: b2 :: b3 :: r3 =>
            if is_cont b1 && is_cont b2 && is_cont b3
               && (negb (N.eqb b0 0xF0) || N.leb 0x90 b1)
               && (negb (N.eqb b0 0xF4) || N.leb b1 0x8F)
            then option_map
                   (cons (N.lor (N.shiftl (N.land b0 0x07) 18)
                                (N.lor (N.shiftl (low6 b1) 12)
                                       (N.lor (N.shiftl (low6 b2) 6) (low6 b3)))))
                   (decode_utf8 fuel' r3)
            else None
        | _ => None
        end
      else None
  end.

Definition is_ws (c : N) : bool :=
  N.eqb c 32 || N.eqb c 9 || N.eqb c 10 || N.eqb c 13.

Fixpoint skip_ws (s : str) : str :=
  match s with
  | c :: s' => if is_ws c then skip_ws s' else s
  | [] => []
  end.

Definition is_digit (c : N) : bool := N.leb 48 c && N.leb c 57.

(** The digits at the head of [s], and what follows. *)
Fixpoint take_digits (s : str) : str * str :=
  match s with
  | c :: s' =>
      if is_digit c
      then let '(ds, rest) := take_digits s' in (c :: ds, rest)
      else ([], s)
  | [] => ([], [])
  end.

(** The number a run of digits writes. *)
Definition number_of (ds : str) : N :=
  fold_left (fun acc c => 10 * acc + (c - 48)) ds 0.

Fixpoint drop_zeros (ds : str) : str :=
  match ds with
  | 48 :: ds' => drop_zeros ds'
  | _ => ds
  end.

(** An exponent part at the head of [s], if there is one. *)
Definition exponent (s : str) : option Z * str :=
  match s with
  | c :: r =>
      if N.eqb c 101 || N.eqb c 69 then
        let '(negative, r') := match r with
                               | 45 :: r' => (true, r')
                               | 43 :: r' => (false, r')
                               | _ => (false, r)
                               end in
        match take_digits r' with
        | ([], _) => (None, s)
        | (ds, rest) =>
            (Some (if negative then (- Z.of_N (number_of ds))%Z
                   else Z.of_N (number_of ds)), rest)
        end
      else (None, s)
  | [] => (None, s)
  end.

(** A number: an [int] when it has neither fraction nor exponent, and
    else the float its digits write. *)
Definition number (s : str) : parse value :=
  let '(negative, s1) := match s with
                         | 45 :: r => (true, r)
                         | _ => (false, s)
                         end in
  let '(ip, s2) := match s1 with
                   | 48 :: r => ([48], r)
                   | _ => take_digits s1
                   end in
  match ip with
  | [] => Invalid
  | _ =>
      let '(frac, s3) := match s2 with
                         | 46 :: r =>
                             match take_digits r with
                             | ([], _) => ([], s2)
                             | (f, r') => (f, r')
                             end
                         | _ => ([], s2)
                         end in
      let '(ex, s4) := exponent s3 in
      match frac, ex with
      | [], None =>
          if Nat.leb (length ip) max_int_digits
          then Parsed (VInt (if negative then (- Z.of_N (number_of ip))%Z
                             else Z.of_N (number_of ip))) s4
          else Unsupported
      | _, _ =>
          let e := match ex with Some e => e | None => 0%Z end in
          let all := ip ++ frac in
          let sig := drop_zeros all in
          let decpt := (Z.of_nat (length ip) + e
                        - Z.of_nat (length all - length sig))%Z in
          let sig := rev (drop_zeros (rev sig)) in
          match sig with
          | [] => Parsed (VFloat (FFinite negative 0 1)) s4
          | _ =>
              if Nat.leb (length sig) 15 && Z.leb (-290) decpt && Z.leb decpt 290
              then Parsed (VFloat (FFinite negative (number_of sig) decpt)) s4
              else Unsupported
          end
      end
  end.

Definition hex_value (c : N) : option N :=
  if is_digit c then Some (c - 48)
  else if N.leb 97 c && N.leb c 102 then Some (c - 87)
  else if N.leb 65 c && N.leb c 70 then Some (c - 55)
  else None.

(** The four hexadecimal digits of a [\u] escape. *)
Definition hex4_value (s : str) : option (N * str) :=
  match s with
  | a :: b :: c :: d :: rest =>
      match hex_value a, hex_value b, hex_value c, hex_value d with
      | Some x, Some y, Some z, Some t =>
          Some (4096 * x + 256 * y + 16 * z + t, rest)
      | _, _, _, _ => None
      end
  | _ => None
  end.

(** The characters of a string up to its closing quote. *)
Fixpoint chars (fuel : nat) (s : str) : parse str :=
  match fuel with
  | O => Unsupported
  | S fuel' =>
      match s with
      | [] => Invalid
      | c :: s' =>
          if N.eqb c QUOTE then Parsed [] s'
          else if N.eqb c BACKSLASH then
            match s' with
            | 117 :: s'' =>
                match hex4_value s'' with
                | Some (u, rest) =>
                    let paired :=
                      if N.leb 0xD800 u && N.leb u 0xDBFF then
                        match rest with
                        | 92 :: 117 :: rest' =>
                            match hex4_value rest' with
                            | Some (u2, rest'') =>
                                if N.leb 0xDC00 u2 && N.leb u2 0xDFFF
                                then Some (0x10000 + N.lor (N.shiftl (u - 0xD800) 10)
                                                           (u2 - 0xDC00), rest'')
                                else None
                            | None => None
                            end
                        | _ => None
                        end
                      else None in
                    let '(cp, rest) := match paired with
                                       | Some p => p
                                       | None => (u, rest)
                                       end in
                    andthen (chars fuel' rest) (fun t r => Parsed (cp :: t) r)
                | None => Invalid
                end
            | e :: s'' =>
                let unescaped :=
                  if N.eqb e QUOTE then Some QUOTE
                  else if N.eqb e BACKSLASH then Some BACKSLASH
                  else if N.eqb e 47 then Some 47
                  else if N.eqb e 98 then Some 8
                  else if N.eqb e 102 then Some 12
                  else if N.eqb e 110 then Some 10
                  else if N.eqb e 114 then Some 13
                  else if N.eqb e 116 then Some 9
                  else None in
                match unescaped with
                | Some u => andthen (chars fuel' s'') (fun t r => Parsed (u :: t) r)
                | None => Invalid
                end
            | [] => Invalid
            end
          else if N.ltb c 32 then Invalid
          else andthen (chars fuel' s') (fun t r => Parsed (c :: t) r)
      end
  end.

(** A value; [depth] is how many arrays and objects may still open. *)
Fixpoint element (fuel depth : nat) (s : str) : parse value :=
  match fuel with
  | O => Unsupported
  | S fuel' =>
      match skip_ws s with
      | 110 :: 117 :: 108 :: 108 :: rest => Parsed VNone rest
      | 116 :: 114 :: 117 :: 101 :: rest => Parsed (VBool true) rest
      | 102 :: 97 :: 108 :: 115 :: 101 :: rest => Parsed (VBool false) rest
      | 78 :: 97 :: 78 :: rest => Parsed (VFloat FNaN) rest
      | 73 :: 110 :: 102 :: 105 :: 110 :: 105 :: 116 :: 121 :: rest =>
          Parsed (VFloat (FInf false)) rest
      | 45 :: 73 :: 110 :: 102 :: 105 :: 110 :: 105 :: 116 :: 121 :: rest =>
          Parsed (VFloat (FInf true)) rest
      | 34 :: rest => andthen (chars fuel' rest) (fun t r => Parsed (VStr t) r)
      | 91 :: rest =>
          match depth, skip_ws rest with
          | O, _ => Unsupported
          | S _, 93 :: rest' => Parsed (VList []) rest'
          | S depth', _ =>
              andthen (elements fuel' depth' rest) (fun l r => Parsed (VList l) r)
          end
      | 123 :: rest =>
          match depth, skip_ws rest with
          | O, _ => Unsupported
          | S _, 125 :: rest' => Parsed (VDict []) rest'
          | S depth', _ =>
              andthen (members fuel' depth' [] rest) (fun d r => Parsed (VDict d) r)
          end
      | rest => number rest
      end
  end

(** The items of an array after its bracket, up to the closing one. *)
with elements (fuel depth : nat) (s : str) : parse (list value) :=
  match fuel with
  | O => Unsupported
  | S fuel' =>
      andthen (element fuel' depth s) (fun v rest =>
        match skip_ws rest with
        | 44 :: rest' =>
            andthen (elements fuel' depth rest') (fun l r => Parsed (v :: l) r)
        | 93 :: rest' => Parsed [v] rest'
        | _ => Invalid
        end)
  end

(** The members of an object; a key met again takes the later value. *)
with members (fuel depth : nat) (acc : list (str * value)) (s : str)
  : parse (list (str * value)) :=
  match fuel with
  | O => Unsupported
  | S fuel' =>
      match skip_ws s with
      | 34 :: rest =>
          andthen (chars fuel' rest) (fun k rest' =>
            match skip_ws rest' with
            | 58 :: rest'' =>
                andthen (element fuel' depth rest'') (fun v rest3 =>
                  let acc := dict_set k v acc in
                  match skip_ws rest3 with
                  | 44 :: rest4 => members fuel' depth acc rest4
                  | 125 :: rest4 => Parsed acc rest4
                  | _ => Invalid
                  end)
            | _ => Invalid
            end)
      | _ => Invalid
      end
  end.

Definition unsupported : exn := OtherError (py "decode_json: body outside the fragment").

(** A whole document: one value and nothing but blanks after it. *)
Definition decode (body : bytes) : exn + value :=
  if negb (reads_as_utf8 body) then inl unsupported
  else
    match decode_utf8 (length body) body with
    | None => inl UnicodeDecodeError
    | Some text =>
        match element (2 * length text + 2) max_depth text with
        | Parsed v rest =>
            match skip_ws rest with
            | [] => inr v
            | _ => inl JSONDecodeError
            end
        | Invalid => inl JSONDecodeError
        | Unsupported => inl unsupported
        end
    end.

End Json.

Definition decode_json : bytes -> exn + value := Json.decode.

#[global, refine] Instance ascii_lib : PyLib := {
  lower := ascii_lower;
  json_load := decode_json
}.
Proof. reflexivity. Defined.

(** A client with both keys, one without the private key, one without
    the public key, as [__init__] builds them. *)
Definition api_with_keys : KunaAPI :=
  mkKunaAPI (Some (py "public")) (Some (py "secret")) (py "https://api.kuna.io") (py "/v3").

Definition api_no_private : KunaAPI :=
  mkKunaAPI (Some (py "public")) None (py "https://api.kuna.io") (py "/v3").

Definition api_no_public : KunaAPI :=
  mkKunaAPI None (Some (py "secret")) (py "https://api.kuna.io") (py "/v3").

Definition api_no_keys : KunaAPI :=
  mkKunaAPI None None (py "https://api.kuna.io") (py "/v3").

(** A server that answers every request with status 200 and [body]; the
    warnings filters are the default ones. *)
Definition world_ok (body : bytes) : World :=
  mkWorld (fun _ => Response body) 1612345678901 (fun _ _ => false).

(** A server that answers every request with status [code] and [body]. *)
Definition world_error (code : N) (body : bytes) : World :=
  mkWorld (fun _ => HTTPError code body) 1612345678901 (fun _ _ => false).

(** The URLs given to [urlopen], in order. *)
Definition urls (l : list event) : list str :=
  flat_map (fun ev => match ev with Urlopen req => [req_url req] | _ => [] end) l.

(** The requests given to [urlopen], in order. *)
Definition requests (l : list event) : list Request :=
  flat_map (fun ev => match ev with Urlopen req => [req] | _ => [] end) l.

(* ================================================================== *)
(** * Notions used by the statements *)

(** A lowercase hexadecimal digit. *)
Definition is_lower_hex (c : N) : bool := char_in c (py "0123456789abcdef").

(** What [_request] makes of the reply of [urlopen]: the [else] branch,
    the [except HTTPError] branch, and any other exception. *)
Definition answer {lib : PyLib} (r : reply) : Exc value :=
  match r with
  | Response resp => json_load resp
  | HTTPError _ err =>
      match APIError_init (OfHTTPError err) with
      | inr e => inl e
      | inl e => inl e
      end
  | Failure e => inl e
  end.

(** Runs the monadic steps whose outcome is already known. *)
Ltac run :=
  cbn -[json_dumps encode_utf8 encode_ascii py str_of_int _generate_sign
        urlencode DEFAULT_HEADERS dict_set dict_get app is_ascii
        hmac_hexdigest KEYS_NEED_MESSAGE lower json_load str_in str_eqb
        available_types truthy fmt _request strings_of].

(** Splits on the reply of the network and on how its body reads. *)
Ltac by_reply :=
  match goal with
  | |- context [urlopen ?w ?req] =>
      unfold answer; destruct (urlopen w req) as [?resp|?code ?err|?e]; run;
      try match goal with
          | |- context [json_load ?b] =>
              destruct (json_load b) as [?e|[| | | | | |]]; run
          end;
      try match goal with
          | |- context [dict_get ?k ?d] => destruct (dict_get k d)
          end;
      reflexivity
  end.

(* ================================================================== *)
(** * Induction on values *)

(** Induction on a value and on the values inside it. *)
Section ValueInd.

Variable P : value -> Prop.
Hypothesis HNone : P VNone.
Hypothesis HBool : forall b, P (VBool b).
Hypothesis HInt : forall n, P (VInt n).
Hypothesis HFloat : forall f, P (VFloat f).
Hypothesis HStr : forall s, P (VStr s).
Hypothesis HList : forall items, Forall P items -> P (VList items).
Hypothesis HDict : forall items, Forall (fun kv => P (snd kv)) items -> P (VDict items).

Fixpoint value_nested_ind (v : value) : P v :=
  match v with
  | VNone => HNone
  | VBool b => HBool b
  | VInt n => HInt n
  | VFloat f => HFloat f
  | VStr s => HStr s
  | VList items =>
      HList ((fix all (l : list value) : Forall P l :=
                match l with
                | [] => Forall_nil _
                | x :: l' => Forall_cons _ (value_nested_ind x) (all l')
                end) items)
  | VDict items =>
      HDict ((fix all (l : list (str * value)) : Forall (fun kv => P (snd kv)) l :=
                match l with
                | [] => Forall_nil _
                | kv :: l' => Forall_cons _ (value_nested_ind (snd kv)) (all l')
                end) items)
  end.

End ValueInd.


(* ================================================================== *)
(** * The signature as the specification words it *)

(** Serialize the body; concatenate uri, nonce and the JSON text; take the
    concatenation as ASCII octets, which fails on a character outside
    ASCII; HMAC-SHA384 under the ASCII private key; lowercase hex.
    [None] is the encoding failure. *)
Definition spec_signature (private_key uri nonce : str) (body : value)
  : option str :=
  let json_body := json_dumps body in
  let concatenation := uri ++ nonce ++ json_body in
  if is_ascii concatenation && is_ascii private_key
  then Some (hex_of_bytes (hmac_digest private_key concatenation sha384))
  else None.

(** The digest the reference implementation ([hmac] and [hashlib] of
    CPython) gives for key [secret] and message
    [/v3/auth/me1612345678901{}]. *)
Definition reference_digest : str :=
  py "d4e44eb5c402eba5fd56c4e1520af67e29218a7c12f454dfe2423c083f193bdc213c2dde5b0cbde82bd294fb95789056".

(** Only characters that [quote] leaves as they are. *)
Definition unreserved (s : str) : bool :=
  forallb (fun c => char_in c ALWAYS_SAFE) s.

(** The headers of an authenticated request, as [_request] fills them. *)
Definition signed_headers (self : KunaAPI) (nonce sign : str)
  : list (str * option str) :=
  dict_set (py "kun-signature") (Some sign)
    (dict_set (py "kun-apikey") (public_key self)
       (dict_set (py "kun-nonce") (Some nonce) DEFAULT_HEADERS)).

(** The request of an unauthenticated method without a body. *)
Definition GET (self : KunaAPI) (path_and_query : str) : Request :=
  mkRequest (endpoint self ++ prefix self ++ path_and_query)
            (py "{}") DEFAULT_HEADERS (py "GET").

(** The amount [put_order] submits: positive for the side [buy],
    negative for any other side. *)
Definition signed_amount {lib : PyLib} (side : str) (amount : Z) : Z :=
  if str_eqb (lower side) (py "buy") then Z.abs amount else (- Z.abs amount)%Z.

(** The deprecated aliases that call their canonical method, each with
    the call it makes: on the caller's arguments, but for [put_order],
    which fixes the type [limit] and signs the amount by the side, and for
    [get_trades_history], which calls [history] without the market
    ([history] looks at no argument).  [get_order_book] is not among them:
    its call of [book] lacks the argument [book] requires. *)
Inductive delegates_to {lib : PyLib} (self : KunaAPI) : M value -> M value -> Prop :=
| to_timestamp :
    delegates_to self (get_server_time self) (timestamp self)
| to_tickers (market : value) :
    delegates_to self (get_recent_market_data self market) (tickers self market)
| to_history (market : value) :
    delegates_to self (get_trades_history self market) (history self [market])
| to_auth_me :
    delegates_to self (get_user_account_info self) (auth_me self)
| to_auth_r_orders (market : option str) :
    delegates_to self (get_orders self market) (auth_r_orders self market)
| to_auth_w_order_submit (side : str) (amount : Z) (symbol : str) (price : value) :
    delegates_to self (put_order self side amount symbol price)
      (auth_w_order_submit self symbol (py "limit")
         (VInt (signed_amount side amount)) price VNone)
| to_order_cancel (order_id : value) :
    delegates_to self (cancel_order self order_id) (order_cancel self order_id)
| to_auth_r_orders_hist (market : option str) :
    delegates_to self (get_trade_history self market) (auth_r_orders_hist self market).

(** The text of the warning of a deprecated alias. *)
Definition better_use (call : string) : str :=
  py "Better use: " ++ [QUOTE] ++ py call ++ [QUOTE].

(** The message of the error for an order type that is not available. *)
Definition unavailable_type_message (type : str) : str :=
  [QUOTE] ++ type ++ [QUOTE] ++ py " is not one of available types "
  ++ available_types_str.

(** The body [{"messages": ["bad"]}]. *)
Definition messages_bad : bytes :=
  py "{" ++ [QUOTE] ++ py "messages" ++ [QUOTE] ++ py ": [" ++ [QUOTE]
  ++ py "bad" ++ [QUOTE] ++ py "]}".

(* ================================================================== *)
(** * The other endpoints of [KunaAPI]

    Arguments that go into a body are any objects ([value]); arguments
    that go into the path are strings, and [order_id] an [int]. *)

Section Endpoints.

Context {lib : PyLib}.

(* ------------------------------------------------------------------ *)
(** ** Public API *)

Definition currencies (self : KunaAPI) : M value :=
  _request self (py "/currencies") [] (VDict []) false.

Definition exchange_rates (self : KunaAPI) (currency : option str) : M value :=
  let path := if truthy currency then py "/exchange-rates/" ++ fmt currency
              else py "/exchange-rates" in
  _request self path [] (VDict []) false.

Definition markets (self : KunaAPI) : M value :=
  _request self (py "/markets") [] (VDict []) false.

(** [price_changes] takes any arguments and is not implemented. *)
Definition price_changes (self : KunaAPI) (args : list value) : M value :=
  raise NotImplementedError.

Definition fees (self : KunaAPI) : M value :=
  _request self (py "/fees") [] (VDict []) false.

(* ------------------------------------------------------------------ *)
(** ** Private API *)

Definition auth_r_wallets (self : KunaAPI) : M value :=
  _request self (py "/auth/r/wallets") [] (VDict []) true.

Definition auth_history_trades (self : KunaAPI) (market date_from date_to : value)
  : M value :=
  let body := VDict [ (py "market", market); (py "date_from", date_from);
                      (py "date_to", date_to) ] in
  _request self (py "/auth/history/trades") [] body true.

(* ------------------------------------------------------------------ *)
(** ** Trade API *)

Definition auth_r_order_trades (self : KunaAPI) (market : str) (order_id : Z)
  : M value :=
  _request self (py "/auth/r/order/" ++ market ++ py ":" ++ str_of_int order_id
                 ++ py "/trades") [] (VDict []) true.

Definition order_cancel_multi (self : KunaAPI) (order_ids : value) : M value :=
  _request self (py "/order/cancel/multi") []
           (VDict [(py "order_ids", order_ids)]) true.

(* ------------------------------------------------------------------ *)
(** ** Merchant API *)

Definition auth_payment_requests_address (self : KunaAPI)
    (currency blockchain callback_url : value) : M value :=
  let body := VDict [ (py "currency", currency); (py "blockchain", blockchain);
                      (py "callback_url", callback_url) ] in
  _request self (py "/auth/payment_requests/address") [] body true.

Definition auth_deposit_info (self : KunaAPI) (currency : value) : M value :=
  _request self (py "/auth/deposit/info") [] (VDict [(py "currency", currency)]) true.

Definition auth_deposit (self : KunaAPI)
    (currency amount payment_service deposit_from : value) : M value :=
  let body := VDict [ (py "currency", currency); (py "amount", amount);
                      (py "payment_service", payment_service);
                      (py "deposit_from", deposit_from) ] in
  _request self (py "/auth/deposit") [] body true.

Definition auth_deposit_details (self : KunaAPI) (id : value) : M value :=
  _request self (py "/auth/deposit/details") [] (VDict [(py "id", id)]) true.

Definition auth_withdraw (self : KunaAPI)
    (withdraw_type amount address gateway fields withdraw_to fund_source_id
     payment_id allow_blank_memo withdrawall : value) : M value :=
  let body := VDict [ (py "withdraw_type", withdraw_type); (py "amount", amount);
                      (py "address", address); (py "gateway", gateway);
                      (py "fields", fields); (py "withdraw_to", withdraw_to);
                      (py "fund_source_id", fund_source_id);
                      (py "payment_id", payment_id);
                      (py "allow_blank_memo", allow_blank_memo);
                      (py "withdrawall", withdrawall) ] in
  _request self (py "/auth/withdraw") [] body true.

Definition auth_withdraw_details (self : KunaAPI) (id : value) : M value :=
  _request self (py "/auth/withdraw/details") [] (VDict [(py "id", id)]) true.

Definition auth_merchant_deposit (self : KunaAPI)
    (currency amount return_url callback_url : value) : M value :=
  let body := VDict [ (py "currency", currency); (py "amount", amount);
                      (py "payment_service", VStr (py "default"));
                      (py "return_url", return_url);
                      (py "callback_url", callback_url) ] in
  _request self (py "/auth/merchant/deposit") [] body true.

Definition auth_merchant_payment_services (self : KunaAPI) (currency : value)
  : M value :=
  _request self (py "/auth/merchant/payment_services") []
           (VDict [(py "currency", currency)]) true.

(* ------------------------------------------------------------------ *)
(** ** Kuna codes *)

(** The one method of this group that is not authenticated. *)
Definition kuna_codes_check (self : KunaAPI) (code : str) : M value :=
  _request self (py "/kuna_codes/" ++ code ++ py "/check") [] (VDict []) false.

Definition kuna_codes (self : KunaAPI)
    (currency amount recipient non_refundable_before comment private_comment : value)
  : M value :=
  let body := VDict [ (py "currency", currency); (py "amount", amount);
                      (py "recipient", recipient);
                      (py "non_refundable_before", non_refundable_before);
                      (py "comment", comment);
                      (py "private_comment", private_comment) ] in
  _request self (py "/auth/kuna_codes") [] body true.

Definition auth_kuna_codes_details (self : KunaAPI) (id : value) : M value :=
  _request self (py "/auth/kuna_codes/details") [] (VDict [(py "id", id)]) true.

Definition auth_kuna_codes_redeem (self : KunaAPI) (code : value) : M value :=
  _request self (py "/auth/kuna_codes/redeem") [] (VDict [(py "code", code)]) true.

Definition auth_kuna_codes_issued_by_me (self : KunaAPI)
    (page per_page order_by order_dir status : value) : M value :=
  let body := VDict [ (py "page", page); (py "per_page", per_page);
                      (py "order_by", order_by); (py "order_dir", order_dir);
                      (py "status", status) ] in
  _request self (py "/auth/kuna_codes/issued-by-me") [] body true.

Definition auth_kuna_codes_redeemed_by_me (self : KunaAPI)
    (page per_page order_by order_dir : value) : M value :=
  let body := VDict [ (py "page", page); (py "per_page", per_page);
                      (py "order_by", order_by); (py "order_dir", order_dir) ] in
  _request self (py "/auth/kuna_codes/redeemed-by-me") [] body true.

(* ------------------------------------------------------------------ *)
(** ** The calls of the current interface

    One constructor for each method that is not a deprecated alias, with
    its arguments, so that a statement can range over all of them. *)

Inductive call : Type :=
| Timestamp
| Currencies
| ExchangeRates (currency : option str)
| Markets
| Tickers (symbols : value)
| Book (market : str)
| History (args : list value)
| PriceChanges (args : list value)
| Fees
| KunaCodesCheck (code : str)
| HttpTest
| AuthMe
| AuthRWallets
| AuthHistoryTrades (market date_from date_to : value)
| AuthROrders (market : option str)
| AuthROrdersHist (market : option str)
| AuthROrderTrades (market : str) (order_id : Z)
| AuthWOrderSubmit (symbol type : str) (amount price stop_price : value)
| OrderCancel (order_id : value)
| OrderCancelMulti (order_ids : value)
| AuthPaymentRequestsAddress (currency blockchain callback_url : value)
| AuthDepositInfo (currency : value)
| AuthDeposit (currency amount payment_service deposit_from : value)
| AuthDepositDetails (id : value)
| AuthWithdraw (withdraw_type amount address gateway fields withdraw_to
                fund_source_id payment_id allow_blank_memo withdrawall : value)
| AuthWithdrawDetails (id : value)
| AssetsHistory (type : option str)
| AuthMerchantDeposit (currency amount return_url callback_url : value)
| AuthMerchantPaymentServices (currency : value)
| KunaCodes (currency amount recipient non_refundable_before comment
             private_comment : value)
| AuthKunaCodesDetails (id : value)
| AuthKunaCodesRedeem (code : value)
| AuthKunaCodesIssuedByMe (page per_page order_by order_dir status : value)
| AuthKunaCodesRedeemedByMe (page per_page order_by order_dir : value).

Definition invoke (self : KunaAPI) (c : call) : M value :=
  match c with
  | Timestamp => timestamp self
  | Currencies => currencies self
  | ExchangeRates currency => exchange_rates self currency
  | Markets => markets self
  | Tickers symbols => tickers self symbols
  | Book market => book self market
  | History args => history self args
  | PriceChanges args => price_changes self args
  | Fees => fees self
  | KunaCodesCheck code => kuna_codes_check self code
  | HttpTest => http_test self
  | AuthMe => auth_me self
  | AuthRWallets => auth_r_wallets self
  | AuthHistoryTrades market date_from date_to =>
      auth_history_trades self market date_from date_to
  | AuthROrders market => auth_r_orders self market
  | AuthROrdersHist market => auth_r_orders_hist self market
  | AuthROrderTrades market order_id => auth_r_order_trades self market order_id
  | AuthWOrderSubmit symbol type amount price stop_price =>
      auth_w_order_submit self symbol type amount price stop_price
  | OrderCancel order_id => order_cancel self order_id
  | OrderCancelMulti order_ids => order_cancel_multi self order_ids
  | AuthPaymentRequestsAddress currency blockchain callback_url =>
      auth_payment_requests_address self currency blockchain callback_url
  | AuthDepositInfo currency => auth_deposit_info self currency
  | AuthDeposit currency amount payment_service deposit_from =>
      auth_deposit self currency amount payment_service deposit_from
  | AuthDepositDetails id => auth_deposit_details self id
  | AuthWithdraw withdraw_type amount address gateway fields withdraw_to
                 fund_source_id payment_id allow_blank_memo withdrawall =>
      auth_withdraw self withdraw_type amount address gateway fields withdraw_to
                    fund_source_id payment_id allow_blank_memo withdrawall
  | AuthWithdrawDetails id => auth_withdraw_details self id
  | AssetsHistory type => assets_history self type
  | AuthMerchantDeposit currency amount return_url callback_url =>
      auth_merchant_deposit self currency amount return_url callback_url
  | AuthMerchantPaymentServices currency =>
      auth_merchant_payment_services self currency
  | KunaCodes currency amount recipient non_refundable_before comment
              private_comment =>
      kuna_codes self currency amount recipient non_refundable_before comment
                 private_comment
  | AuthKunaCodesDetails id => auth_kuna_codes_details self id
  | AuthKunaCodesRedeem code => auth_kuna_codes_redeem self code
  | AuthKunaCodesIssuedByMe page per_page order_by order_dir status =>
      auth_kuna_codes_issued_by_me self page per_page order_by order_dir status
  | AuthKunaCodesRedeemedByMe page per_page order_by order_dir =>
      auth_kuna_codes_redeemed_by_me self page per_page order_by order_dir
  end.

End Endpoints.

(** The calls whose method passes [is_user_method=True]. *)
Definition authenticated (c : call) : bool :=
  match c with
  | Timestamp | Currencies | ExchangeRates _ | Markets | Tickers _ | Book _
  | History _ | PriceChanges _ | Fees | KunaCodesCheck _ => false
  | _ => true
  end.

(** The arguments of a signed [Request]: the method is POST, the URL
    argument is the endpoint followed by a uri, the headers are the default
    ones followed by the nonce, the public key and the signature, and the
    signature is the HMAC-SHA384, under [key], of that uri, the nonce of
    the header and the data argument, put end to end.  This speaks of what
    the client hands to [urlopen], not of what [urllib] then sends. *)
Definition carries_signature (self : KunaAPI) (key : str) (req : Request) : Prop :=
  exists path nonce sign,
    req_url req = endpoint self ++ prefix self ++ path /\
    req_method req = py "POST" /\
    req_headers req
    = DEFAULT_HEADERS ++ [ (py "kun-nonce", Some nonce);
                           (py "kun-apikey", public_key self);
                           (py "kun-signature", Some sign) ] /\
    sign = hmac_hexdigest key ((prefix self ++ path) ++ nonce ++ req_data req) sha384 /\
    length sign = 96.

(** A string is an item [','.join] accepts. *)
Definition is_VStr (v : value) : bool :=
  match v with VStr _ => true | _ => false end.

(** A surrogate code point, which UTF-8 cannot encode. *)
Definition is_surrogate (c : N) : bool := N.leb 0xD800 c && N.leb c 0xDFFF.

(** What [urlencode] leaves in a value: unreserved characters, the percent
    sign of an escape and the plus sign of a space. *)
Definition query_safe (c : N) : bool := char_in c (ALWAYS_SAFE ++ py "%+").

(* ================================================================== *)
(** * Facts about strings and codecs *)

Lemma str_eqb_eq (s t : str) : str_eqb s t = true <-> s = t.
Proof.
  revert t; induction s as [|c s IH]; intros [|d t]; simpl;
    try (split; [discriminate | congruence]); try tauto.
  rewrite andb_true_iff, N.eqb_eq, IH.
  split; [intros [-> ->]; reflexivity | intros H; inversion H; auto].
Qed.

Lemma is_ascii_app (s t : str) :
  is_ascii (s ++ t) = is_ascii s && is_ascii t.
Proof. apply forallb_app. Qed.

Lemma encode_ascii_ok (s : str) : is_ascii s = true -> encode_ascii s = Some s.
Proof.
  induction s as [|c s IH]; simpl; [reflexivity|].
  intros H; apply andb_true_iff in H as [Hc Hs].
  rewrite Hc, (IH Hs); reflexivity.
Qed.

Lemma encode_ascii_fails (s : str) : is_ascii s = false -> encode_ascii s = None.
Proof.
  induction s as [|c s IH]; simpl; [discriminate|].
  destruct (N.ltb c 128); simpl; [|reflexivity].
  intros H; rewrite (IH H); reflexivity.
Qed.

Lemma encode_utf8_ascii (s : str) : is_ascii s = true -> encode_utf8 s = Some s.
Proof.
  induction s as [|c s IH]; simpl; [reflexivity|].
  intros H; apply andb_true_iff in H as [Hc Hs].
  unfold utf8_char. change 0x80%N with 128%N.
  rewrite Hc, (IH Hs); reflexivity.
Qed.

Lemma py_cons (c : ascii) (s : string) :
  py (String c s) = N_of_ascii c :: py s.
Proof. reflexivity. Qed.

(** Decimal numerals are ASCII. *)
Lemma digits_ascii (d : Decimal.uint) :
  is_ascii (py (NilEmpty.string_of_uint d)) = true.
Proof.
  induction d; simpl NilEmpty.string_of_uint;
    try (rewrite py_cons; simpl is_ascii; rewrite IHd); reflexivity.
Qed.

Lemma string_of_uint_ascii (d : Decimal.uint) :
  is_ascii (py (NilZero.string_of_uint d)) = true.
Proof. destruct d; try reflexivity; apply digits_ascii. Qed.

Lemma str_of_int_ascii (n : Z) : is_ascii (str_of_int n) = true.
Proof.
  unfold str_of_int. destruct (Z.to_int n) as [d|d]; simpl NilZero.string_of_int.
  - apply string_of_uint_ascii.
  - rewrite py_cons. simpl is_ascii. rewrite string_of_uint_ascii. reflexivity.
Qed.

(* ================================================================== *)
(** * Facts about the digest *)

Lemma octet_lt (i x : N) : (SHA384.octet i x < 256)%N.
Proof.
  unfold SHA384.octet. change 0xFF%N with (N.ones 8).
  rewrite N.land_ones. apply N.mod_lt. discriminate.
Qed.

Lemma be_bytes8_lt (x : N) : Forall (fun b => (b < 256)%N) (SHA384.be_bytes8 x).
Proof. unfold SHA384.be_bytes8; repeat constructor; apply octet_lt. Qed.

Lemma output_lt (h : SHA384.regs) : Forall (fun b => (b < 256)%N) (SHA384.output h).
Proof.
  unfold SHA384.output.
  repeat (apply Forall_app; split); apply be_bytes8_lt.
Qed.

Lemma output_length (h : SHA384.regs) : length (SHA384.output h) = 48.
Proof. reflexivity. Qed.

Lemma sha384_digest_length (m : bytes) : length (SHA384.digest m) = 48.
Proof. unfold SHA384.digest. apply output_length. Qed.

Lemma sha384_digest_lt (m : bytes) : Forall (fun b => (b < 256)%N) (SHA384.digest m).
Proof. unfold SHA384.digest. apply output_lt. Qed.

Lemma hex_of_bytes_length (bs : bytes) : length (hex_of_bytes bs) = 2 * length bs.
Proof.
  unfold hex_of_bytes. induction bs as [|b bs IH]; simpl; [reflexivity|].
  rewrite IH. lia.
Qed.

Lemma hex_digit_lower (d : N) : (d < 16)%N -> is_lower_hex (hex_digit d) = true.
Proof.
  intros H.
  assert (Hn : (N.to_nat d < 16)%nat) by lia.
  unfold hex_digit. generalize dependent (N.to_nat d). intros n Hn.
  do 16 (destruct n as [|n]; [reflexivity|]). lia.
Qed.

Lemma hex_of_bytes_lower (bs : bytes) :
  Forall (fun b => (b < 256)%N) bs -> forallb is_lower_hex (hex_of_bytes bs) = true.
Proof.
  unfold hex_of_bytes. induction 1 as [|b bs Hb _ IH]; simpl; [reflexivity|].
  rewrite IH, !hex_digit_lower; auto.
  - apply N.mod_lt; discriminate.
  - apply N.Div0.div_lt_upper_bound. exact Hb.
Qed.

Lemma hmac_sha384_length (key msg : bytes) :
  length (hmac_hexdigest key msg sha384) = 96.
Proof.
  unfold hmac_hexdigest, hmac_digest. simpl dm_digest.
  rewrite hex_of_bytes_length, sha384_digest_length. reflexivity.
Qed.

Lemma hmac_sha384_lower (key msg : bytes) :
  forallb is_lower_hex (hmac_hexdigest key msg sha384) = true.
Proof.
  unfold hmac_hexdigest, hmac_digest. simpl dm_digest.
  apply hex_of_bytes_lower, sha384_digest_lt.
Qed.

(* ================================================================== *)
(** * json.dumps yields ASCII *)

Lemma is_lower_hex_ascii (c : N) : is_lower_hex c = true -> N.ltb c 128 = true.
Proof.
  unfold is_lower_hex, char_in. simpl.
  rewrite !orb_true_iff, !N.eqb_eq.
  intuition (subst; try reflexivity; discriminate).
Qed.

Lemma hex_digit_ascii (n : N) : N.ltb (hex_digit (N.modulo n 16)) 128 = true.
Proof.
  apply is_lower_hex_ascii, hex_digit_lower, N.mod_lt. discriminate.
Qed.

Lemma u_escape_ascii (n : N) : is_ascii (u_escape n) = true.
Proof.
  unfold u_escape, hex4. simpl. rewrite !hex_digit_ascii. reflexivity.
Qed.

Lemma json_escape_char_ascii (c : N) : is_ascii (json_escape_char c) = true.
Proof.
  unfold json_escape_char.
  repeat match goal with
         | |- context [if ?b then _ else _] => destruct b eqn:?
         end; try reflexivity.
  - simpl. apply andb_true_iff in Heqb6 as [_ H].
    apply N.leb_le in H. rewrite andb_true_r. apply N.ltb_lt. lia.
  - apply u_escape_ascii.
  - rewrite is_ascii_app, !u_escape_ascii. reflexivity.
Qed.

Lemma is_ascii_flat_map {A : Type} (f : A -> str) (l : list A) :
  (forall a, is_ascii (f a) = true) -> is_ascii (flat_map f l) = true.
Proof.
  intros H. induction l as [|a l IH]; simpl; [reflexivity|].
  rewrite is_ascii_app, H, IH. reflexivity.
Qed.

Lemma json_string_ascii (s : str) : is_ascii (json_string s) = true.
Proof.
  unfold json_string.
  change (QUOTE :: flat_map json_escape_char s ++ [QUOTE])
    with ([QUOTE] ++ flat_map json_escape_char s ++ [QUOTE]).
  rewrite !is_ascii_app, is_ascii_flat_map by apply json_escape_char_ascii.
  reflexivity.
Qed.

Lemma is_ascii_join (sep : str) (parts : list str) :
  is_ascii sep = true -> Forall (fun p => is_ascii p = true) parts ->
  is_ascii (join sep parts) = true.
Proof.
  intros Hsep. induction 1 as [|p parts Hp Hparts IH]; [reflexivity|].
  destruct parts as [|q parts]; [exact Hp|].
  change (join sep (p :: q :: parts)) with (p ++ sep ++ join sep (q :: parts)).
  rewrite !is_ascii_app, Hp, Hsep, IH. reflexivity.
Qed.

Lemma is_ascii_firstn (n : nat) (s : str) :
  is_ascii s = true -> is_ascii (firstn n s) = true.
Proof.
  revert n. induction s as [|c s IH]; intros [|n] H; try reflexivity.
  simpl in *. apply andb_true_iff in H as [Hc Hs].
  rewrite Hc. exact (IH n Hs).
Qed.

Lemma is_ascii_skipn (n : nat) (s : str) :
  is_ascii s = true -> is_ascii (skipn n s) = true.
Proof.
  revert n. induction s as [|c s IH]; intros [|n] H; try reflexivity; [exact H|].
  simpl in *. apply andb_true_iff in H as [_ Hs]. exact (IH n Hs).
Qed.

Lemma is_ascii_zeros (n : nat) : is_ascii (repeat 48%N n) = true.
Proof. induction n as [|n IH]; [reflexivity|exact IH]. Qed.

Lemma exponent_text_ascii (e : Z) : is_ascii (exponent_text e) = true.
Proof.
  unfold exponent_text.
  rewrite (is_ascii_app (if Z.ltb e 0 then py "-" else py "+")),
          (is_ascii_app (if Z.ltb (Z.abs e) 10 then py "0" else [])),
          str_of_int_ascii.
  destruct (Z.ltb e 0), (Z.ltb (Z.abs e) 10); reflexivity.
Qed.

Lemma floatstr_ascii (f : pyfloat) : is_ascii (floatstr f) = true.
Proof.
  destruct f as [|[|]|negative digits decpt]; try reflexivity.
  unfold floatstr, float_repr. cbv zeta.
  set (ds := str_of_int (Z.of_N digits)).
  assert (Hds : is_ascii ds = true) by apply str_of_int_ascii.
  rewrite (is_ascii_app (if negative then py "-" else [])).
  apply andb_true_iff. split; [destruct negative; reflexivity|].
  repeat match goal with
         | |- context [if ?b then _ else _] => destruct b
         end;
    repeat (rewrite is_ascii_app; apply andb_true_iff; split);
    auto using is_ascii_firstn, is_ascii_skipn, is_ascii_zeros,
               exponent_text_ascii.
Qed.

Lemma json_dumps_ascii (v : value) : is_ascii (json_dumps v) = true.
Proof.
  induction v as [| [|] | n | f | s | items IH | items IH] using value_nested_ind;
    try reflexivity.
  - apply str_of_int_ascii.
  - apply floatstr_ascii.
  - apply json_string_ascii.
  - change (json_dumps (VList items))
      with (py "[" ++ join (py ", ") (map json_dumps items) ++ py "]").
    rewrite !is_ascii_app, is_ascii_join; [reflexivity | reflexivity |].
    apply Forall_map. exact IH.
  - change (json_dumps (VDict items))
      with (py "{" ++ join (py ", ")
              (map (fun kv => json_string (fst kv) ++ py ": " ++ json_dumps (snd kv))
                   items) ++ py "}").
    rewrite !is_ascii_app, is_ascii_join; [reflexivity | reflexivity |].
    apply Forall_map. apply Forall_impl with (2 := IH).
    intros [k x] Hx. simpl fst; simpl snd in *.
    rewrite !is_ascii_app, json_string_ascii, Hx. reflexivity.
Qed.

Lemma json_dumps_encode (v : value) : encode_utf8 (json_dumps v) = Some (json_dumps v).
Proof. apply encode_utf8_ascii, json_dumps_ascii. Qed.

(* ================================================================== *)
(** * Running [_request] *)

Section Running.

Context {lib : PyLib}.

(** With [error=True], [_check_keys] never raises and logs nothing,
    whatever the keys. *)
Lemma _check_keys_error_returns (self : KunaAPI) (w : World) :
  _check_keys self true w = ([], inr tt).
Proof.
  unfold _check_keys.
  destruct (is_None (public_key self) || is_None (private_key self)); reflexivity.
Qed.

(** [_request], step by step: the query string, then for an authenticated
    call the signature, then the one call to [urlopen] and what is made of
    its reply.  Nothing is logged before that call. *)
Lemma _request_run (self : KunaAPI) (path : str) (args : list (str * str))
    (body : value) (is_user_method : bool) (w : World) :
  _request self path args body is_user_method w =
  match (if nonempty args
         then option_map (fun q => path ++ py "?" ++ q) (urlencode args)
         else Some path) with
  | None => ([], inl UnicodeEncodeError)
  | Some path' =>
      let uri := prefix self ++ path' in
      if is_user_method then
        let nonce := str_of_int (time_ms w) in
        match _generate_sign self uri (json_dumps body) nonce with
        | inl e => ([], inl e)
        | inr sign =>
            let req := mkRequest (endpoint self ++ uri) (json_dumps body)
                         (signed_headers self nonce sign) (py "POST") in
            ([Urlopen req], answer (urlopen w req))
        end
      else
        let req := mkRequest (endpoint self ++ uri) (json_dumps body)
                     DEFAULT_HEADERS (py "GET") in
        ([Urlopen req], answer (urlopen w req))
  end.
Proof.
  unfold _request, signed_headers.
  destruct (nonempty args); run.
  - destruct (urlencode args) as [q|]; [|reflexivity].
    run. destruct is_user_method; run.
    + rewrite _check_keys_error_returns. run.
      destruct (_generate_sign self (prefix self ++ path ++ py "?" ++ q)
                  (json_dumps body) (str_of_int (time_ms w))) as [e|sign];
        [reflexivity|].
      run. rewrite json_dumps_encode. run. by_reply.
    + rewrite json_dumps_encode. run. by_reply.
  - destruct is_user_method; run.
    + rewrite _check_keys_error_returns. run.
      destruct (_generate_sign self (prefix self ++ path) (json_dumps body)
                  (str_of_int (time_ms w))) as [e|sign]; [reflexivity|].
      run. rewrite json_dumps_encode. run. by_reply.
    + rewrite json_dumps_encode. run. by_reply.
Qed.

(** Either [_request] raises before anything reaches the network, or it
    calls [urlopen] once and its outcome is read off the reply. *)
Lemma _request_cases (self : KunaAPI) (path : str) (args : list (str * str))
    (body : value) (is_user_method : bool) (w : World) :
  (exists e, _request self path args body is_user_method w = ([], inl e)) \/
  (exists req, _request self path args body is_user_method w
               = ([Urlopen req], answer (urlopen w req))).
Proof.
  rewrite _request_run.
  destruct (if nonempty args then _ else _) as [path'|]; [|left; eauto].
  cbv zeta. destruct is_user_method; [|right; eauto].
  destruct (_generate_sign _ _ _ _); [left|right]; eauto.
Qed.

(** An unauthenticated request does not depend on the keys. *)
Lemma public_request_ignores_keys (self self' : KunaAPI) (path : str)
    (args : list (str * str)) (body : value) (w : World) :
  endpoint self = endpoint self' -> prefix self = prefix self' ->
  _request self path args body false w = _request self' path args body false w.
Proof.
  intros He Hp. rewrite !_request_run, He, Hp. reflexivity.
Qed.

End Running.

(* ================================================================== *)
(** * Test vectors of the library models *)

(** FIPS 180-4, SHA-384 of [abc]. *)
Example sha384_abc :
  hex_of_bytes (SHA384.digest (py "abc"))
  = py "cb00753f45a35e8bb5a03d699ac65007272c32ab0eded1631a8b605a43ff5bed8086072ba1e7cc2358baeca134c825a7".
Proof. vm_compute. reflexivity. Qed.

(** RFC 4231, test case 2. *)
Example hmac_sha384_rfc4231_case2 :
  hmac_hexdigest (py "Jefe") (py "what do ya want for nothing?") sha384
  = py "af45d2e376484031617f78d2b58a6b1b9c7ef464f5a01b47e42ec3736322445e8e2240ca5e69e2c78b3239ecfab21649".
Proof. vm_compute. reflexivity. Qed.

(** RFC 4231, test case 6: a key longer than a block is hashed first. *)
Example hmac_sha384_rfc4231_case6 :
  hmac_hexdigest (repeat 0xAA%N 131)
    (py "Test Using Larger Than Block-Size Key - Hash Key First") sha384
  = py "4ece084485813e9088d2c63a041bc5b44f9ef1012a2b588f3cd11f05033ac4c60c2ef6ab4030fe8296248df163f44952".
Proof. vm_compute. reflexivity. Qed.

(** [json.dumps] of an order body, with [None] and a negative amount. *)
Example json_dumps_order :
  json_dumps (VDict [ (py "symbol", VStr (py "ethuah")); (py "type", VStr (py "limit"));
                      (py "amount", VInt (-5)); (py "price", VInt 600);
                      (py "stop_price", VNone) ])
  = py "{" ++ [QUOTE] ++ py "symbol" ++ [QUOTE] ++ py ": " ++ [QUOTE] ++ py "ethuah" ++ [QUOTE]
    ++ py ", " ++ [QUOTE] ++ py "type" ++ [QUOTE] ++ py ": " ++ [QUOTE] ++ py "limit" ++ [QUOTE]
    ++ py ", " ++ [QUOTE] ++ py "amount" ++ [QUOTE] ++ py ": -5"
    ++ py ", " ++ [QUOTE] ++ py "price" ++ [QUOTE] ++ py ": 600"
    ++ py ", " ++ [QUOTE] ++ py "stop_price" ++ [QUOTE] ++ py ": null}".
Proof. vm_compute. reflexivity. Qed.

(** [json.dumps] escapes what is not printable ASCII: U+00E9, a line
    feed, a quote and U+1F600 (a surrogate pair). *)
Example json_dumps_escapes :
  json_dumps (VStr [0xE9%N; LF; QUOTE; 0x1F600%N])
  = [QUOTE; BACKSLASH] ++ py "u00e9" ++ [BACKSLASH] ++ py "n" ++ [BACKSLASH; QUOTE]
    ++ [BACKSLASH] ++ py "ud83d" ++ [BACKSLASH] ++ py "ude00" ++ [QUOTE].
Proof. vm_compute. reflexivity. Qed.

(** [urlencode]: comma, slash and U+00E9 are escaped, a space becomes a
    plus sign, the tilde stays. *)
Example urlencode_reserved :
  urlencode [(py "symbols", py "a,b c/~" ++ [0xE9%N])]
  = Some (py "symbols=a%2Cb+c%2F~%C3%A9").
Proof. vm_compute. reflexivity. Qed.

(* ================================================================== *)
(** * The signature *)

Lemma _generate_sign_ascii (self : KunaAPI) (key uri body nonce : str) :
  private_key self = Some key ->
  is_ascii key = true -> is_ascii (uri ++ nonce ++ body) = true ->
  _generate_sign self uri body nonce
  = inr (hmac_hexdigest key (uri ++ nonce ++ body) sha384).
Proof.
  intros Hkey Hk Hp. unfold _generate_sign.
  rewrite (encode_ascii_ok _ Hp), Hkey. simpl orraise.
  cbn [bind Monad_Exc]. rewrite (encode_ascii_ok _ Hk). reflexivity.
Qed.

Lemma generate_sign_non_ascii (self : KunaAPI) (uri body nonce : str) :
  is_ascii (uri ++ nonce ++ body) = false ->
  _generate_sign self uri body nonce = inl UnicodeEncodeError.
Proof.
  intros Hp. unfold _generate_sign.
  rewrite (encode_ascii_fails _ Hp). reflexivity.
Qed.

(** [_generate_sign] on the JSON text of a body against the signature of
    the specification, and the serialization of the empty mapping. *)
Lemma generate_sign_refines :
  (forall (self : KunaAPI) (key uri nonce : str) (body : value),
      private_key self = Some key ->
      _generate_sign self uri (json_dumps body) nonce
      = match spec_signature key uri nonce body with
        | Some sign => inr sign
        | None => inl UnicodeEncodeError
        end)
  /\ json_dumps (VDict []) = py "{}".
Proof.
  split; [|reflexivity].
  intros self key uri nonce body Hkey.
  unfold spec_signature.
  destruct (is_ascii (uri ++ nonce ++ json_dumps body)) eqn:Hp.
  - destruct (is_ascii key) eqn:Hk; simpl andb; cbv iota.
    + apply _generate_sign_ascii; assumption.
    + unfold _generate_sign.
      rewrite (encode_ascii_ok _ Hp), Hkey. simpl orraise.
      cbn [bind Monad_Exc]. rewrite (encode_ascii_fails _ Hk). reflexivity.
  - simpl andb; cbv iota. apply generate_sign_non_ascii. exact Hp.
Qed.

(** C2.  The signature [_generate_sign] returns on the JSON text of a body
    is the one the specification describes: the lowercase hex digest of
    HMAC-SHA384, keyed by the ASCII private key, over the ASCII octets of
    uri, nonce and JSON body put end to end, and an encoding error where
    that text or the key is not ASCII.  The empty mapping serializes to
    [{}], and for uri [/v3/auth/me], nonce [1612345678901], body [{}] and
    private key [secret] the signature is the reference digest. *)
Theorem generate_sign_is_hmac_sha384 :
  (forall (self : KunaAPI) (key uri nonce : str) (body : value),
      private_key self = Some key ->
      _generate_sign self uri (json_dumps body) nonce
      = match spec_signature key uri nonce body with
        | Some sign => inr sign
        | None => inl UnicodeEncodeError
        end)
  /\ json_dumps (VDict []) = py "{}"
  /\ _generate_sign api_with_keys (py "/v3/auth/me") (json_dumps (VDict []))
       (py "1612345678901") = inr reference_digest.
Proof.
  split; [apply generate_sign_refines|].
  split; [reflexivity|].
  vm_compute. reflexivity.
Qed.

Lemma generate_sign_is_hmac_sha384_witness :
  _generate_sign api_with_keys (py "/v3/auth/me") (json_dumps (VDict []))
    (py "1612345678901")
  = match spec_signature (py "secret") (py "/v3/auth/me") (py "1612345678901")
            (VDict []) with
    | Some sign => inr sign
    | None => inl UnicodeEncodeError
    end.
Proof.
  apply (proj1 generate_sign_is_hmac_sha384 api_with_keys (py "secret")).
  reflexivity.
Defined.

(** C3.  On ASCII uri, nonce and body and an ASCII private key,
    [_generate_sign] returns a digest of exactly 96 lowercase hexadecimal
    characters, and that digest is a function of the four inputs alone:
    any client holding the same private key computes the same one. *)
Theorem generate_sign_deterministic_96 (self : KunaAPI) (key uri body nonce : str) :
  private_key self = Some key ->
  is_ascii key = true ->
  is_ascii uri = true -> is_ascii nonce = true -> is_ascii body = true ->
  exists digest : str,
    _generate_sign self uri body nonce = inr digest /\
    length digest = 96 /\
    forallb is_lower_hex digest = true /\
    forall self' : KunaAPI,
      private_key self' = Some key ->
      _generate_sign self' uri body nonce = inr digest.
Proof.
  intros Hkey Hk Hu Hn Hb.
  assert (Hp : is_ascii (uri ++ nonce ++ body) = true)
    by (rewrite !is_ascii_app, Hu, Hn, Hb; reflexivity).
  exists (hmac_hexdigest key (uri ++ nonce ++ body) sha384).
  split; [|split; [|split]].
  - apply _generate_sign_ascii; assumption.
  - apply hmac_sha384_length.
  - apply hmac_sha384_lower.
  - intros self' Hkey'. apply _generate_sign_ascii; assumption.
Qed.

Lemma generate_sign_deterministic_96_witness :
  exists digest : str,
    _generate_sign api_with_keys (py "/v3/auth/me") (py "{}") (py "1612345678901")
    = inr digest /\
    length digest = 96 /\
    forallb is_lower_hex digest = true /\
    forall self' : KunaAPI,
      private_key self' = Some (py "secret") ->
      _generate_sign self' (py "/v3/auth/me") (py "{}") (py "1612345678901")
      = inr digest.
Proof.
  apply (generate_sign_deterministic_96 api_with_keys (key := py "secret"));
    reflexivity.
Defined.

(** C5.  When uri, nonce and JSON body put end to end hold a character
    outside ASCII, [_generate_sign] raises the encoding error
    ([UnicodeEncodeError]) and yields no signature, whatever the keys. *)
Theorem generate_sign_rejects_non_ascii (self : KunaAPI) (uri body nonce : str) :
  is_ascii (uri ++ nonce ++ body) = false ->
  _generate_sign self uri body nonce = inl UnicodeEncodeError.
Proof.
  intros Hp. unfold _generate_sign.
  destruct (encode_ascii (uri ++ nonce ++ body)) as [payload_bin|] eqn:He.
  - rewrite (encode_ascii_fails _ Hp) in He. discriminate He.
  - reflexivity.
Qed.

Lemma generate_sign_rejects_non_ascii_witness :
  _generate_sign api_with_keys (py "/v3/book/" ++ [0x20AC%N]) (py "{}")
    (py "1612345678901") = inl UnicodeEncodeError.
Proof.
  apply generate_sign_rejects_non_ascii. reflexivity.
Defined.

(* ================================================================== *)
(** * Credentials *)

Section Credentials.

Context {lib : PyLib}.

(** On an ASCII path an authenticated request of a client that holds an
    ASCII private key is signed and sent, whatever its public key. *)
Lemma _request_user_sent (self : KunaAPI) (key path : str) (body : value)
    (w : World) :
  private_key self = Some key -> is_ascii key = true ->
  is_ascii (prefix self ++ path) = true ->
  exists req,
    _request self path [] body true w = ([Urlopen req], answer (urlopen w req)) /\
    req_url req = endpoint self ++ prefix self ++ path /\
    dict_get (py "kun-apikey") (req_headers req) = Some (public_key self).
Proof.
  intros Hkey Hk Hp. rewrite _request_run. simpl nonempty. cbv iota zeta.
  rewrite (_generate_sign_ascii self (key := key)); trivial.
  - eexists. split; [reflexivity|]. split; reflexivity.
  - rewrite !is_ascii_app, json_dumps_ascii, str_of_int_ascii, andb_true_r.
    rewrite is_ascii_app in Hp. exact Hp.
Qed.

(** Without private key an authenticated request on an ASCII path stops
    in [_generate_sign], at [self.private_key.encode]: [AttributeError],
    and nothing is logged. *)
Lemma _request_without_private_key (self : KunaAPI) (path : str) (body : value)
    (w : World) :
  private_key self = None -> is_ascii (prefix self ++ path) = true ->
  _request self path [] body true w = ([], inl AttributeError).
Proof.
  intros Hkey Hp. rewrite _request_run. simpl nonempty. cbv iota zeta.
  unfold _generate_sign.
  rewrite encode_ascii_ok, Hkey; [reflexivity|].
  rewrite is_ascii_app, Hp, is_ascii_app, str_of_int_ascii, json_dumps_ascii.
  reflexivity.
Qed.

(** [KunaAPI()] without keys warns and builds the client all the same,
    unless the filters make the warning an error. *)
Example init_without_keys (w : World) :
  __init__ None None false w
  = ([Warn UserWarning KEYS_NEED_MESSAGE],
     if warning_is_error w UserWarning KEYS_NEED_MESSAGE
     then inl (Warning UserWarning KEYS_NEED_MESSAGE)
     else inr api_no_keys).
Proof.
  unfold __init__, _check_keys, warn. run.
  destruct (warning_is_error w UserWarning KEYS_NEED_MESSAGE); reflexivity.
Qed.

(** C1 (the code departs from it).  With [error=True], [_check_keys]
    returns normally on a client without keys.  An authenticated method of
    a client without private key then fails in [_generate_sign] with
    [AttributeError]; one of a client without public key is signed and
    given to [urlopen] with the header [kun-apikey] set to [None].  In
    neither case is the error for missing credentials raised. *)
Theorem missing_credentials_not_reported (w : World) :
  _check_keys api_no_keys true w = ([], inr tt)
  /\ auth_me api_no_private w = ([], inl AttributeError)
  /\ exists req,
       auth_me api_no_public w = ([Urlopen req], answer (urlopen w req)) /\
       dict_get (py "kun-apikey") (req_headers req) = Some None.
Proof.
  split; [apply _check_keys_error_returns|]. split.
  - unfold auth_me. apply _request_without_private_key; reflexivity.
  - unfold auth_me.
    destruct (_request_user_sent api_no_public (key := py "secret")
                (py "/auth/me") (VDict []) w) as (req & Hrun & _ & Hhdr);
      try reflexivity.
    exists req. split; [exact Hrun | exact Hhdr].
Qed.

(** The request an authenticated method sends carries the signature of
    the specification, over the uri it is sent to, the nonce in its header
    and the JSON text in its body. *)
Lemma request_carries_spec_signature (self : KunaAPI) (key path : str)
    (body : value) (w : World) (req : Request) :
  private_key self = Some key ->
  In req (requests (events (_request self path [] body true) w)) ->
  exists nonce,
    dict_get (py "kun-nonce") (req_headers req) = Some (Some nonce) /\
    req_data req = json_dumps body /\
    dict_get (py "kun-signature") (req_headers req)
    = Some (spec_signature key (prefix self ++ path) nonce body).
Proof.
  intros Hkey. unfold events. rewrite _request_run. simpl nonempty.
  cbv iota zeta.
  rewrite (proj1 generate_sign_refines self key (prefix self ++ path)
             (str_of_int (time_ms w)) body Hkey).
  destruct (spec_signature key (prefix self ++ path) (str_of_int (time_ms w)) body)
    as [sign|] eqn:Hsign; [|intros []].
  cbn [fst requests flat_map app In]. intros [<- | []].
  exists (str_of_int (time_ms w)). rewrite Hsign.
  split; [reflexivity | split; reflexivity].
Qed.

(** A path outside ASCII stops an authenticated request before the
    network: the encoding error is raised and nothing is logged. *)
Lemma request_non_ascii_not_sent (self : KunaAPI) (path : str) (body : value)
    (w : World) :
  is_ascii (prefix self ++ path) = false ->
  _request self path [] body true w = ([], inl UnicodeEncodeError).
Proof.
  intros H. rewrite _request_run. simpl nonempty. cbv iota zeta.
  rewrite generate_sign_non_ascii; [reflexivity|].
  rewrite is_ascii_app, H. reflexivity.
Qed.

End Credentials.

(* ================================================================== *)
(** * Argument checks *)

Section Arguments.

Context {lib : PyLib}.

(** C4.  For every symbol, amount, price and stop price,
    [auth_w_order_submit] with a type whose lowercase form is none of
    limit, market, market_by_quote, limit_stop_loss raises the error of an
    invalid argument (an [APIError] naming the type) and nothing is logged:
    no request is sent. *)
Theorem order_submit_rejects_unknown_type (self : KunaAPI) (symbol type : str)
    (amount price stop_price : value) (w : World) :
  str_in (lower type) available_types = false ->
  outcome (auth_w_order_submit self symbol type amount price stop_price) w
  = inl (APIError (MsgObj (VStr (unavailable_type_message type))))
  /\ events (auth_w_order_submit self symbol type amount price stop_price) w = [].
Proof.
  intros H. unfold outcome, events, auth_w_order_submit. rewrite H.
  split; reflexivity.
Qed.

(** C8.  For every type whose lowercase form is neither withdraws nor
    deposits, [assets_history] raises the error of an invalid argument (an
    [APIError]) and nothing is logged: no request is sent. *)
Theorem assets_history_rejects_unknown_type (self : KunaAPI) (type : str)
    (w : World) :
  str_in (lower type) [py "withdraws"; py "deposits"] = false ->
  outcome (assets_history self (Some type)) w
  = inl (APIError (MsgObj (VStr (py "type must by 'withdraws', 'deposits' or None"))))
  /\ events (assets_history self (Some type)) w = [].
Proof.
  intros H. unfold outcome, events, assets_history.
  run. rewrite H. split; reflexivity.
Qed.

Lemma app_longer_neq {A : Type} (l t : list A) : t <> [] -> l ++ t <> l.
Proof.
  intros Ht H. apply (f_equal (@length A)) in H.
  rewrite length_app in H. destruct t; [congruence | simpl in H; lia].
Qed.

(** C10.  [assets_history()] with its default argument raises
    [AttributeError] at [type.lower()] and logs nothing; and whatever the
    argument, a request [assets_history] sends goes to
    [/auth/assets-history/] followed by the non-empty type, never to
    [/auth/assets-history] itself. *)
Theorem assets_history_never_combined (self : KunaAPI) (w : World) :
  assets_history self None w = ([], inl AttributeError)
  /\ forall (type : option str) (req : Request),
       In req (requests (events (assets_history self type) w)) ->
       (exists s, type = Some s /\ s <> [] /\
                  req_url req
                  = endpoint self ++ prefix self ++ py "/auth/assets-history/" ++ s)
       /\ req_url req <> endpoint self ++ prefix self ++ py "/auth/assets-history".
Proof.
  split; [reflexivity|].
  intros [s|] req; [|intros []].
  unfold events, assets_history. run.
  destruct (str_in (lower s) [py "withdraws"; py "deposits"]) eqn:Hin;
    run; [|intros []].
  assert (Hs : s <> []).
  { intros ->. rewrite lower_empty in Hin. discriminate. }
  destruct s as [|c s]; [congruence|]. cbn [truthy fmt].
  rewrite _request_run. simpl nonempty. cbv iota zeta.
  destruct (_generate_sign _ _ _ _); [intros []|].
  cbn [fst requests flat_map app In req_url]. intros [<- | []].
  cbn [req_url]. split.
  - exists (c :: s). auto.
  - intros H. do 2 apply app_inv_head in H. revert H.
    change (py "/auth/assets-history/" ++ c :: s)
      with (py "/auth/assets-history" ++ (py "/" ++ c :: s)).
    apply app_longer_neq. discriminate.
Qed.

End Arguments.

Lemma order_submit_rejects_unknown_type_witness :
  outcome (auth_w_order_submit api_with_keys (py "ethuah") (py "invalid_type")
             (VInt 1) (VInt 600) VNone) (world_ok (py "{}"))
  = inl (APIError (MsgObj (VStr (unavailable_type_message (py "invalid_type")))))
  /\ events (auth_w_order_submit api_with_keys (py "ethuah") (py "invalid_type")
               (VInt 1) (VInt 600) VNone) (world_ok (py "{}")) = [].
Proof.
  apply order_submit_rejects_unknown_type. reflexivity.
Defined.

Lemma assets_history_rejects_unknown_type_witness :
  outcome (assets_history api_with_keys (Some (py "Trades"))) (world_ok (py "{}"))
  = inl (APIError (MsgObj (VStr (py "type must by 'withdraws', 'deposits' or None"))))
  /\ events (assets_history api_with_keys (Some (py "Trades"))) (world_ok (py "{}")) = [].
Proof.
  apply assets_history_rejects_unknown_type. reflexivity.
Defined.

Lemma assets_history_never_combined_witness :
  (exists s, Some (py "Deposits") = Some s /\ s <> [] /\
             req_url (hd (GET api_with_keys []) (requests (events
                 (assets_history api_with_keys (Some (py "Deposits")))
                 (world_ok (py "[]")))))
             = endpoint api_with_keys ++ prefix api_with_keys
               ++ py "/auth/assets-history/" ++ s)
  /\ req_url (hd (GET api_with_keys []) (requests (events
                 (assets_history api_with_keys (Some (py "Deposits")))
                 (world_ok (py "[]")))))
     <> endpoint api_with_keys ++ prefix api_with_keys ++ py "/auth/assets-history".
Proof.
  apply (proj2 (assets_history_never_combined api_with_keys (world_ok (py "[]")))
               (Some (py "Deposits"))).
  vm_compute. left. reflexivity.
Defined.

(* ================================================================== *)
(** * Replies with an error status *)

Section ErrorReplies.

Context {lib : PyLib}.

(** C6 (the code departs from it).  When a request was given to
    [urlopen] and the reply is an [HTTPError]: if its body reads as a JSON
    object with a [messages] field, [_request] raises an [APIError] whose
    message is that field.  If [json.load] raises on the body, as it does
    on a body that is not JSON, its exception leaves [APIError.__init__]
    while [raise APIError(err)] is evaluated, and that exception is what
    the caller gets: no [APIError] is raised and the raw text is lost. *)
Theorem http_error_surfaces (self : KunaAPI) (path : str)
    (args : list (str * str)) (body : value) (is_user_method : bool)
    (w : World) (req : Request) (code : N) (err : bytes) :
  events (_request self path args body is_user_method) w = [Urlopen req] ->
  urlopen w req = HTTPError code err ->
  (forall d messages,
      json_load err = inr (VDict d) ->
      dict_get (py "messages") d = Some messages ->
      outcome (_request self path args body is_user_method) w
      = inl (APIError (MsgObj messages)))
  /\ (forall e,
      json_load err = inl e ->
      outcome (_request self path args body is_user_method) w = inl e).
Proof.
  unfold events, outcome. intros Hev Hreply.
  destruct (_request_cases self path args body is_user_method w)
    as [[e Hrun] | [req' Hrun]]; rewrite Hrun in *; simpl in Hev.
  - discriminate.
  - injection Hev as ->. simpl snd. rewrite Hreply.
    unfold answer, APIError_init. split.
    + intros d messages Hload Hget. rewrite Hload. run. rewrite Hget. reflexivity.
    + intros e Hload. rewrite Hload. reflexivity.
Qed.

End ErrorReplies.

(** A reply 500 whose body is the text [Internal Server Error] makes the
    request raise [JSONDecodeError], the exception of [json.load]. *)
Lemma http_error_surfaces_witness :
  outcome (_request api_no_keys (py "/timestamp") [] (VDict []) false)
          (world_error 500 (py "Internal Server Error"))
  = inl JSONDecodeError.
Proof.
  refine (proj2 (http_error_surfaces api_no_keys (py "/timestamp") [] (VDict []) false
                   (world_error 500 (py "Internal Server Error"))
                   (req := GET api_no_keys (py "/timestamp")) (code := 500%N)
                   (err := py "Internal Server Error") _ _) JSONDecodeError _);
    reflexivity.
Defined.

(** A reply 422 with body [{"messages": ["bad"]}] surfaces as an
    [APIError] whose message is the list [["bad"]]. *)
Example error_422_messages_bad :
  timestamp api_no_keys (world_error 422 messages_bad)
  = ([Urlopen (GET api_no_keys (py "/timestamp"))],
     inl (APIError (MsgObj (VList [VStr (py "bad")])))).
Proof. vm_compute. reflexivity. Qed.

(** A reply 500 whose body is text and not JSON: [timestamp] raises
    [JSONDecodeError], and no [APIError] carries the text. *)
Example error_500_text_body :
  timestamp api_no_keys (world_error 500 (py "Internal Server Error"))
  = ([Urlopen (GET api_no_keys (py "/timestamp"))], inl JSONDecodeError).
Proof. vm_compute. reflexivity. Qed.

(** A reply 502 whose body is the octet [0xFF], which is no UTF-8 text:
    [timestamp] raises [UnicodeDecodeError]. *)
Example error_502_octet_body :
  timestamp api_no_keys (world_error 502 [0xFF%N])
  = ([Urlopen (GET api_no_keys (py "/timestamp"))], inl UnicodeDecodeError).
Proof. vm_compute. reflexivity. Qed.

(* ================================================================== *)
(** * tickers *)

Lemma unreserved_ascii (s : str) : unreserved s = true -> is_ascii s = true.
Proof.
  unfold unreserved, is_ascii. rewrite !forallb_forall.
  intros H c Hc. specialize (H c Hc).
  unfold char_in in H. apply existsb_exists in H as (x & Hx & Heq).
  apply N.eqb_eq in Heq. subst x.
  clear Hc. revert c Hx. apply Forall_forall.
  unfold ALWAYS_SAFE. simpl. repeat constructor.
Qed.

Lemma unreserved_cons (c : N) (s : str) :
  unreserved (c :: s) = char_in c ALWAYS_SAFE && unreserved s.
Proof. reflexivity. Qed.

Lemma unreserved_no_space (s : str) : unreserved s = true -> char_in SPACE s = false.
Proof.
  induction s as [|c s IH]; [reflexivity|].
  rewrite unreserved_cons.
  change (char_in SPACE (c :: s)) with (N.eqb SPACE c || char_in SPACE s).
  intros H. apply andb_true_iff in H as [Hc Hs]. rewrite (IH Hs), orb_false_r.
  destruct (N.eqb_spec SPACE c) as [<-|]; [|reflexivity].
  vm_compute in Hc. discriminate Hc.
Qed.

Lemma quote_from_bytes_unreserved (s : str) :
  unreserved s = true -> quote_from_bytes s [] = s.
Proof.
  unfold quote_from_bytes. cbn [filter]. rewrite app_nil_r.
  induction s as [|c s IH]; [reflexivity|].
  rewrite unreserved_cons. intros H. apply andb_true_iff in H as [Hc Hs].
  cbn [flat_map]. rewrite Hc, (IH Hs). reflexivity.
Qed.

(** [quote_plus] leaves a string of letters, digits and [_.-~] as it is. *)
Lemma quote_plus_unreserved (s : str) :
  unreserved s = true -> quote_plus s [] = Some s.
Proof.
  intros H. unfold quote_plus. rewrite (unreserved_no_space _ H). simpl negb.
  cbv iota. unfold quote. destruct s as [|c s]; [reflexivity|].
  rewrite (encode_utf8_ascii _ (unreserved_ascii _ H)).
  rewrite (quote_from_bytes_unreserved _ H). reflexivity.
Qed.

Lemma urlencode_symbols (v q : str) :
  quote_plus v [] = Some q ->
  urlencode [(py "symbols", v)] = Some (py "symbols=" ++ q).
Proof.
  intros H. unfold urlencode, urlencode_pairs.
  rewrite H. reflexivity.
Qed.

Lemma strings_of_items (l : list str) : strings_of (map VStr l) = inr l.
Proof. induction l as [|s l IH]; simpl; [|rewrite IH]; reflexivity. Qed.

Section Tickers.

Context {lib : PyLib}.

(** C7 (as the code has it).  [tickers()] without argument sends one GET
    request whose query string is [symbols=ALL].  With a list of strings
    it sends [symbols=] followed by the items joined by commas and then
    percent-encoded by [urlencode], so that [['a','b']] gives
    [symbols=a%2Cb]; with one string [s] it sends [symbols=] followed by
    [s] percent-encoded, which is [s] itself when [s] is made of letters,
    digits and [_.-~]. *)
Theorem tickers_query (self : KunaAPI) (w : World) :
  requests (events (tickers self VNone) w) = [GET self (py "/tickers?symbols=ALL")]
  /\ (forall (symbols : list str) (q : str),
        quote_plus (join (py ",") symbols) [] = Some q ->
        requests (events (tickers self (VList (map VStr symbols))) w)
        = [GET self (py "/tickers?symbols=" ++ q)])
  /\ quote_plus (join (py ",") [py "a"; py "b"]) [] = Some (py "a%2Cb")
  /\ (forall (s q : str),
        quote_plus s [] = Some q ->
        requests (events (tickers self (VStr s)) w)
        = [GET self (py "/tickers?symbols=" ++ q)])
  /\ (forall s : str, unreserved s = true -> quote_plus s [] = Some s).
Proof.
  split; [|split; [|split; [|split]]].
  - unfold events, tickers. run. rewrite _request_run. reflexivity.
  - intros symbols q Hq. unfold events, tickers. run.
    rewrite strings_of_items. run.
    rewrite _request_run. simpl nonempty. cbv iota.
    rewrite (urlencode_symbols _ Hq). reflexivity.
  - reflexivity.
  - intros s q Hq. unfold events, tickers. run.
    rewrite _request_run. simpl nonempty. cbv iota.
    rewrite (urlencode_symbols _ Hq). reflexivity.
  - apply quote_plus_unreserved.
Qed.

End Tickers.

Lemma tickers_query_witness :
  requests (events (tickers api_no_keys (VList (map VStr [py "a"; py "b"])))
                   (world_ok (py "[]")))
  = [GET api_no_keys (py "/tickers?symbols=" ++ py "a%2Cb")].
Proof.
  apply (proj1 (proj2 (tickers_query api_no_keys (world_ok (py "[]"))))).
  reflexivity.
Defined.

(** C7, where it fails: for the list [['a','b']] the URL given to
    [urlopen] ends in [symbols=a%2Cb]; the query string is not
    [symbols=a,b]. *)
Lemma tickers_list_query_is_percent_encoded :
  urls (events (tickers api_no_keys (VList [VStr (py "a"); VStr (py "b")]))
               (world_ok (py "[]")))
  = [py "https://api.kuna.io/v3/tickers?symbols=a%2Cb"]
  /\ str_eqb (py "https://api.kuna.io/v3/tickers?symbols=a%2Cb")
             (py "https://api.kuna.io/v3/tickers?symbols=a,b") = false.
Proof. split; vm_compute; reflexivity. Qed.

(* ================================================================== *)
(** * Old methods *)

(** What a method does that warns it is deprecated, runs [c] and returns
    nothing. *)
Lemma deprecated_run (text : str) (c : M value) (w : World) :
  (warning_is_error w DeprecationWarning text = true ->
   (warn DeprecationWarning text ;; c ;; ret VNone) w
   = ([Warn DeprecationWarning text], inl (Warning DeprecationWarning text)))
  /\ (warning_is_error w DeprecationWarning text = false ->
      events (warn DeprecationWarning text ;; c ;; ret VNone) w
      = Warn DeprecationWarning text :: events c w
      /\ (forall e, outcome c w = inl e ->
           outcome (warn DeprecationWarning text ;; c ;; ret VNone) w = inl e)
      /\ (forall v, outcome c w = inr v ->
           outcome (warn DeprecationWarning text ;; c ;; ret VNone) w = inr VNone)).
Proof.
  unfold events, outcome, warn. cbn.
  split; intros ->; [reflexivity|].
  destruct (c w) as [l [e|v]]; cbn; [|rewrite app_nil_r];
    (split; [reflexivity|]); split; intros ? [=]; subst; reflexivity.
Qed.

Section OldMethods.

Context {lib : PyLib}.

(** C9 (the code departs from it).  Each deprecated alias but
    [get_order_book] warns and then calls its canonical method; where the
    warning is not made an error it sends what that call sends and raises
    what that call raises, but when the call returns a result the alias
    drops it and returns [None]: so [get_server_time] returns [None]
    whatever the server answers to [timestamp].  [get_order_book] sends
    nothing and raises, [TypeError] for the call of [book] without market,
    where [book] sends its request.  Where the warning is made an error,
    an alias raises it and does not reach its canonical method. *)
Theorem deprecated_aliases_lose_result (self : KunaAPI) (w : World) :
  (forall alias canonical,
      delegates_to self alias canonical ->
      exists text,
        (warning_is_error w DeprecationWarning text = true ->
         alias w = ([Warn DeprecationWarning text],
                    inl (Warning DeprecationWarning text)))
        /\ (warning_is_error w DeprecationWarning text = false ->
            events alias w = Warn DeprecationWarning text :: events canonical w
            /\ (forall e, outcome canonical w = inl e -> outcome alias w = inl e)
            /\ (forall v, outcome canonical w = inr v -> outcome alias w = inr VNone)))
  /\ (forall resp v,
        urlopen w (GET self (py "/timestamp")) = Response resp ->
        json_load resp = inr v ->
        warning_is_error w DeprecationWarning (better_use "api.timestamp()") = false ->
        outcome (timestamp self) w = inr v
        /\ outcome (get_server_time self) w = inr VNone)
  /\ (forall market,
        requests (events (book self market) w) = [GET self (py "/book/" ++ market)]
        /\ requests (events (get_order_book self market) w) = []
        /\ outcome (get_order_book self market) w
           = if warning_is_error w DeprecationWarning (better_use "api.book(market)")
             then inl (Warning DeprecationWarning (better_use "api.book(market)"))
             else inl TypeError).
Proof.
  assert (Htimestamp : forall resp v,
             urlopen w (GET self (py "/timestamp")) = Response resp ->
             json_load resp = inr v -> outcome (timestamp self) w = inr v).
  { intros resp v Hreply Hload. unfold outcome, timestamp.
    rewrite _request_run. cbn [nonempty snd]. cbv zeta.
    change (mkRequest (endpoint self ++ prefix self ++ py "/timestamp")
              (json_dumps (VDict [])) DEFAULT_HEADERS (py "GET"))
      with (GET self (py "/timestamp")).
    rewrite Hreply. exact Hload. }
  split; [|split].
  - intros alias canonical [ | market | market | | market
                            | side amount symbol price | order_id | market];
      eexists; apply deprecated_run.
  - intros resp v Hreply Hload Hquiet. split; [eauto|].
    apply (proj2 (deprecated_run _ (timestamp self) w) Hquiet) with (v := v).
    eauto.
  - intros market. split; [|split].
    + unfold events, book. rewrite _request_run. reflexivity.
    + unfold events, get_order_book, warn, better_use. cbn.
      destruct (warning_is_error w DeprecationWarning _); reflexivity.
    + unfold outcome, get_order_book, warn, better_use. cbn.
      destruct (warning_is_error w DeprecationWarning _); reflexivity.
Qed.

End OldMethods.

(** When the server answers [timestamp()] with a JSON object,
    [get_server_time()] returns [None] and not that object. *)
Example get_server_time_returns_none :
  outcome (timestamp api_no_keys) (world_ok (py "{}")) = inr (VDict [])
  /\ outcome (get_server_time api_no_keys) (world_ok (py "{}")) = inr VNone.
Proof. split; vm_compute; reflexivity. Qed.

(** [get_order_book] calls [book] without the market and raises
    [TypeError] where [book] itself returns. *)
Example get_order_book_raises :
  outcome (book api_no_keys (py "btcuah")) (world_ok (py "{}")) = inr (VDict [])
  /\ get_order_book api_no_keys (py "btcuah") (world_ok (py "{}"))
     = ([Warn DeprecationWarning (better_use "api.book(market)")],
        inl TypeError).
Proof. split; vm_compute; reflexivity. Qed.

(* ================================================================== *)
(** * Every call of the interface *)

Lemma encode_ascii_some (s : str) (b : bytes) :
  encode_ascii s = Some b -> b = s /\ is_ascii s = true.
Proof.
  revert b. induction s as [|c s IH]; simpl; intros b H.
  - injection H as <-. split; reflexivity.
  - destruct (N.ltb c 128); [|discriminate].
    destruct (encode_ascii s) as [bs|]; [|discriminate].
    injection H as <-. destruct (IH bs eq_refl) as [-> ->].
    split; reflexivity.
Qed.

(** What a signature returned by [_generate_sign] is. *)
Lemma _generate_sign_returns (self : KunaAPI) (uri body nonce sign : str) :
  _generate_sign self uri body nonce = inr sign ->
  exists key, private_key self = Some key /\ is_ascii key = true /\
              is_ascii (uri ++ nonce ++ body) = true /\
              sign = hmac_hexdigest key (uri ++ nonce ++ body) sha384.
Proof.
  unfold _generate_sign.
  destruct (encode_ascii (uri ++ nonce ++ body)) as [p|] eqn:Hp; [|discriminate].
  destruct (private_key self) as [key|]; [|discriminate].
  simpl orraise. cbn [bind Monad_Exc].
  destruct (encode_ascii key) as [k|] eqn:Hk; [|discriminate].
  cbn [orraise ret Monad_Exc]. intros H. injection H as <-.
  apply encode_ascii_some in Hp as [-> Hp], Hk as [-> Hk].
  exists key. auto.
Qed.

Section Calls.

Context {lib : PyLib}.

(** A request an authenticated [_request] hands to [urlopen] carries the
    signature of its own arguments, and its data is the JSON text of the
    [body] argument. *)
Lemma signed_request_carries_signature (self : KunaAPI) (key path : str) (body : value)
    (w : World) (req : Request) :
  private_key self = Some key ->
  In req (requests (events (_request self path [] body true) w)) ->
  carries_signature self key req /\ req_data req = json_dumps body.
Proof.
  intros Hkey. unfold events. rewrite _request_run. simpl nonempty.
  cbv iota zeta.
  destruct (_generate_sign self (prefix self ++ path) (json_dumps body)
              (str_of_int (time_ms w))) as [e|sign] eqn:Hsign; [intros []|].
  cbn [fst requests flat_map app In]. intros [<- | []].
  apply _generate_sign_returns in Hsign as (key' & Hkey' & _ & _ & ->).
  rewrite Hkey in Hkey'. injection Hkey' as <-.
  split; [|reflexivity].
  exists path, (str_of_int (time_ms w)),
    (hmac_hexdigest key ((prefix self ++ path) ++ str_of_int (time_ms w)
                         ++ json_dumps body) sha384).
  cbn [req_url req_method req_headers req_data].
  do 3 (split; [reflexivity|]).
  split; [reflexivity | apply hmac_sha384_length].
Qed.

(** Without private key an authenticated [_request] sends nothing. *)
Lemma unsigned_request_not_sent (self : KunaAPI) (path : str) (body : value)
    (w : World) :
  private_key self = None ->
  events (_request self path [] body true) w = [].
Proof.
  intros Hkey. unfold events. rewrite _request_run. simpl nonempty.
  cbv iota zeta.
  destruct (_generate_sign self (prefix self ++ path) (json_dumps body)
              (str_of_int (time_ms w))) as [e|sign] eqn:Hsign; [reflexivity|].
  apply _generate_sign_returns in Hsign as (key & Hkey' & _).
  congruence.
Qed.

(** An authenticated call either raises on its arguments, with an empty
    log, or is one authenticated [_request] without query arguments. *)
Lemma invoke_authenticated_form (self : KunaAPI) (c : call) :
  authenticated c = true ->
  (exists e, forall w, invoke self c w = ([], inl e)) \/
  (exists path body, forall w, invoke self c w = _request self path [] body true w).
Proof.
  destruct c; try discriminate; intros _;
    try (right; eexists; eexists; intros w; reflexivity).
  - unfold invoke, auth_w_order_submit.
    destruct (str_in (lower type) available_types).
    + right. eexists. eexists. intros w. reflexivity.
    + left. eexists. intros w. reflexivity.
  - unfold invoke, assets_history. destruct type as [s|].
    + destruct (str_in (lower s) [py "withdraws"; py "deposits"]) eqn:Hin.
      * right.
        exists (if truthy (Some s) then py "/auth/assets-history/" ++ fmt (Some s)
                else py "/auth/assets-history"), (VDict []).
        intros w. run. rewrite Hin. run.
        destruct (_request self _ [] (VDict []) true w). reflexivity.
      * left. eexists. intros w. run. rewrite Hin. reflexivity.
    + left. eexists. intros w. reflexivity.
Qed.

(** A call that is not authenticated either raises on its arguments, with
    an empty log, or is one unauthenticated [_request] with the empty
    body. *)
Lemma invoke_public_form (self : KunaAPI) (c : call) :
  authenticated c = false ->
  (exists e, forall w, invoke self c w = ([], inl e)) \/
  (exists path args,
      forall w, invoke self c w = _request self path args (VDict []) false w).
Proof.
  destruct c; try discriminate; intros _;
    try (right; eexists; eexists; intros w; reflexivity);
    try (left; eexists; intros w; reflexivity).
  unfold invoke, tickers.
  assert (Hrun : forall args w,
             (let '(l', r) := _request self (py "/tickers") args (VDict []) false w
              in ([] ++ l', r))
             = _request self (py "/tickers") args (VDict []) false w).
  { intros args w. destruct (_request self _ args (VDict []) false w).
    reflexivity. }
  destruct symbols as [| | | | s | items |];
    try (right; exists (py "/tickers"), [(py "symbols", py "ALL")];
         intros w; run; apply Hrun).
  - right. exists (py "/tickers"), [(py "symbols", s)]. intros w. run. apply Hrun.
  - destruct (strings_of items) as [e|parts].
    + left. eexists. intros w. reflexivity.
    + right. exists (py "/tickers"), [(py "symbols", join (py ",") parts)].
      intros w. run. apply Hrun.
Qed.

(** X1.  Whatever the method and its arguments, a call of the current
    interface gives [urlopen] at most one request and logs nothing else:
    there is no retry and no second request. *)
Theorem call_sends_at_most_one_request (self : KunaAPI) (c : call) (w : World) :
  events (invoke self c) w = [] \/
  exists req, events (invoke self c) w = [Urlopen req].
Proof.
  unfold events.
  destruct (authenticated c) eqn:Hc.
  - destruct (invoke_authenticated_form self c Hc) as [[e H] | (path & body & H)];
      rewrite H; [left; reflexivity|].
    destruct (_request_cases self path [] body true w) as [[e' H'] | [req H']];
      rewrite H'; [left | right; exists req]; reflexivity.
  - destruct (invoke_public_form self c Hc) as [[e H] | (path & args & H)];
      rewrite H; [left; reflexivity|].
    destruct (_request_cases self path args (VDict []) false w)
      as [[e' H'] | [req H']];
      rewrite H'; [left | right; exists req]; reflexivity.
Qed.

(** X2.  A method that is not authenticated sends only GET requests that
    carry the three default headers and the body [{}], so nothing derived
    from the keys; and what it does is the same for two clients that
    differ in their keys only. *)
Theorem public_call_is_plain_get (self : KunaAPI) (c : call) (w : World) :
  authenticated c = false ->
  (forall req, In req (requests (events (invoke self c) w)) ->
               req_method req = py "GET" /\
               req_headers req = DEFAULT_HEADERS /\
               req_data req = py "{}")
  /\ (forall public_key' private_key',
         invoke (mkKunaAPI public_key' private_key' (endpoint self) (prefix self)) c w
         = invoke self c w).
Proof.
  intros Hc. split.
  - intros req. unfold events.
    destruct (invoke_public_form self c Hc) as [[e H] | (path & args & H)];
      rewrite H; [intros []|].
    rewrite _request_run.
    destruct (if nonempty args then _ else _) as [path'|]; [|intros []].
    cbv zeta iota. cbn [fst requests flat_map app In]. intros [<- | []].
    repeat split.
  - intros pk sk. destruct c; try discriminate; reflexivity.
Qed.

(** X3.  Every [Request] an authenticated method hands to [urlopen] is
    built with the method POST, the URL argument endpoint, prefix and path,
    the default headers, then the nonce, the public key and a signature of
    96 characters, which is the HMAC-SHA384 under the private key of the
    prefix and path as the client wrote them, the nonce of the header and
    the data argument. *)
Theorem authenticated_call_carries_signature (self : KunaAPI) (key : str)
    (c : call) (w : World) (req : Request) :
  authenticated c = true ->
  private_key self = Some key ->
  In req (requests (events (invoke self c) w)) ->
  carries_signature self key req.
Proof.
  intros Hc Hkey. unfold events.
  destruct (invoke_authenticated_form self c Hc) as [[e H] | (path & body & H)];
    rewrite H; [intros []|].
  intros Hin.
  apply (signed_request_carries_signature self path body w req Hkey Hin).
Qed.

(** X4.  A client without private key never sends a request of an
    authenticated method, whatever the method and its arguments. *)
Theorem no_private_key_no_authenticated_request (self : KunaAPI) (c : call)
    (w : World) :
  authenticated c = true ->
  private_key self = None ->
  requests (events (invoke self c) w) = [].
Proof.
  intros Hc Hkey. unfold events.
  destruct (invoke_authenticated_form self c Hc) as [[e H] | (path & body & H)];
    rewrite H; [reflexivity|].
  change (fst (_request self path [] body true w))
    with (events (_request self path [] body true) w).
  rewrite unsigned_request_not_sent; auto.
Qed.

End Calls.

Lemma public_call_is_plain_get_witness :
  (forall req,
      In req (requests (events (invoke api_with_keys (Book (py "btcuah")))
                               (world_ok (py "[]")))) ->
      req_method req = py "GET" /\
      req_headers req = DEFAULT_HEADERS /\
      req_data req = py "{}")
  /\ (forall public_key' private_key',
         invoke (mkKunaAPI public_key' private_key' (endpoint api_with_keys)
                           (prefix api_with_keys))
                (Book (py "btcuah")) (world_ok (py "[]"))
         = invoke api_with_keys (Book (py "btcuah")) (world_ok (py "[]"))).
Proof.
  apply (public_call_is_plain_get api_with_keys (Book (py "btcuah"))
           (world_ok (py "[]"))).
  reflexivity.
Defined.

Lemma authenticated_call_carries_signature_witness :
  carries_signature api_with_keys (py "secret")
    (hd (GET api_with_keys [])
        (requests (events (invoke api_with_keys (OrderCancel (VInt 42)))
                          (world_ok (py "[]"))))).
Proof.
  apply (authenticated_call_carries_signature api_with_keys (key := py "secret")
           (OrderCancel (VInt 42)) (world_ok (py "[]"))).
  - reflexivity.
  - reflexivity.
  - vm_compute. left. reflexivity.
Defined.

Lemma no_private_key_no_authenticated_request_witness :
  requests (events (invoke api_no_private
                      (AuthWithdraw (VStr (py "btc")) (VInt 1) VNone VNone VNone
                                    VNone VNone VNone VNone VNone))
                   (world_ok (py "[]"))) = [].
Proof.
  apply no_private_key_no_authenticated_request; reflexivity.
Defined.

(* ================================================================== *)
(** * Replies *)

Section Replies.

Context {lib : PyLib}.

(** X5.  Once a request is sent, on a reply with a success status the
    call returns what [json.load] returns on its body, and raises what
    [json.load] raises on it; an exception of [urlopen] that is not an
    [HTTPError] reaches the caller unchanged.  Neither exception is turned
    into an [APIError]. *)
Theorem reply_decides_outcome (self : KunaAPI) (path : str)
    (args : list (str * str)) (body : value) (is_user_method : bool)
    (w : World) (req : Request) :
  events (_request self path args body is_user_method) w = [Urlopen req] ->
  (forall resp, urlopen w req = Response resp ->
      outcome (_request self path args body is_user_method) w = json_load resp)
  /\ (forall e, urlopen w req = Failure e ->
      outcome (_request self path args body is_user_method) w = inl e).
Proof.
  unfold events, outcome. intros Hev.
  destruct (_request_cases self path args body is_user_method w)
    as [[e Hrun] | [req' Hrun]]; rewrite Hrun in *; simpl in Hev.
  - discriminate.
  - injection Hev as ->. simpl snd. split.
    + intros resp Hreply. rewrite Hreply. reflexivity.
    + intros e Hreply. rewrite Hreply. reflexivity.
Qed.

(** X6.  On an [HTTPError] whose body is JSON without a [messages]
    field, the [APIError] raised carries the decoded body itself when that
    is a string, and otherwise the [repr] of the decoded body. *)
Theorem http_error_without_messages (self : KunaAPI) (path : str)
    (args : list (str * str)) (body : value) (is_user_method : bool)
    (w : World) (req : Request) (code : N) (err : bytes) (v : value) :
  events (_request self path args body is_user_method) w = [Urlopen req] ->
  urlopen w req = HTTPError code err ->
  json_load err = inr v ->
  (forall d, v = VDict d -> dict_get (py "messages") d = None) ->
  outcome (_request self path args body is_user_method) w
  = inl (APIError match v with
                  | VStr s => MsgObj (VStr s)
                  | _ => MsgRepr v
                  end).
Proof.
  unfold events, outcome. intros Hev Hreply Hload Hno.
  destruct (_request_cases self path args body is_user_method w)
    as [[e Hrun] | [req' Hrun]]; rewrite Hrun in *; simpl in Hev.
  - discriminate.
  - injection Hev as ->. simpl snd. rewrite Hreply.
    unfold answer, APIError_init. rewrite Hload. run.
    destruct v as [| b | n | f | s | items | d]; try reflexivity.
    rewrite (Hno d eq_refl). reflexivity.
Qed.


End Replies.

(** A reply 200 with the body [[1.5]]: the call returns the list of the
    float 1.5. *)
Lemma reply_decides_outcome_witness :
  outcome (_request api_no_keys (py "/fees") [] (VDict []) false)
          (world_ok (py "[1.5]"))
  = inr (VList [VFloat (FFinite false 15 1)]).
Proof.
  refine (proj1 (reply_decides_outcome api_no_keys (py "/fees") [] (VDict []) false
                   (world_ok (py "[1.5]")) (req := GET api_no_keys (py "/fees")) _)
                (py "[1.5]") _);
    reflexivity.
Defined.

(** A reply 200 whose body is not JSON, and one whose body is not text:
    the exception of [json.load] is what [fees] raises. *)
Example reply_200_not_json :
  outcome (_request api_no_keys (py "/fees") [] (VDict []) false)
          (world_ok (py "<html>")) = inl JSONDecodeError
  /\ outcome (_request api_no_keys (py "/fees") [] (VDict []) false)
             (world_ok [0xFF%N]) = inl UnicodeDecodeError.
Proof. split; vm_compute; reflexivity. Qed.

Lemma http_error_without_messages_witness :
  outcome (_request api_no_keys (py "/fees") [] (VDict []) false)
          (world_error 404 (py "[404]"))
  = inl (APIError (MsgRepr (VList [VInt 404]))).
Proof.
  apply (http_error_without_messages api_no_keys (py "/fees") [] (VDict []) false
           (world_error 404 (py "[404]"))
           (req := GET api_no_keys (py "/fees")) (code := 404%N)
           (err := py "[404]") (v := VList [VInt 404]));
    try reflexivity.
  intros d H. discriminate H.
Defined.


(* ================================================================== *)
(** * Orders *)

Section Orders.

Context {lib : PyLib}.


(** X9.  [put_order] does not look at the sign of the amount it is
    given: the side alone decides the sign that is sent, so an amount and
    its opposite give the same call. *)
Theorem put_order_ignores_amount_sign (self : KunaAPI) (side : str) (amount : Z)
    (symbol : str) (price : value) (w : World) :
  put_order self side (- amount) symbol price w
  = put_order self side amount symbol price w.
Proof. unfold put_order. rewrite Z.abs_opp. reflexivity. Qed.

(** X14.  An empty string for an optional path argument is taken as no
    argument: [exchange_rates('')], [auth_r_orders('')] and
    [auth_r_orders_hist('')] do what the calls without argument do. *)
Theorem empty_string_is_no_argument (self : KunaAPI) (w : World) :
  exchange_rates self (Some []) w = exchange_rates self None w
  /\ auth_r_orders self (Some []) w = auth_r_orders self None w
  /\ auth_r_orders_hist self (Some []) w = auth_r_orders_hist self None w.
Proof. repeat split. Qed.

End Orders.


(* ================================================================== *)
(** * The query string of tickers *)

Lemma strings_of_non_string (items : list value) :
  existsb (fun v => negb (is_VStr v)) items = true ->
  strings_of items = inl TypeError.
Proof.
  induction items as [|v items IH]; simpl; [discriminate|].
  destruct v; simpl; try reflexivity.
  intros H. rewrite (IH H). reflexivity.
Qed.

Lemma encode_utf8_surrogate (s : str) :
  existsb is_surrogate s = true -> encode_utf8 s = None.
Proof.
  induction s as [|c s IH]; simpl; [discriminate|].
  intros H. apply orb_true_iff in H as [Hc | Hs].
  - unfold utf8_char. unfold is_surrogate in Hc.
    apply andb_true_iff in Hc as [Hlo Hhi].
    apply N.leb_le in Hlo, Hhi.
    destruct (N.ltb_spec c 0x80); [lia|].
    destruct (N.ltb_spec c 0x800); [lia|].
    destruct (N.leb_spec 0xD800 c); [|lia].
    destruct (N.leb_spec c 0xDFFF); [|lia].
    reflexivity.
  - rewrite (IH Hs). destruct (utf8_char c); reflexivity.
Qed.

Lemma quote_plus_surrogate (s : str) :
  existsb is_surrogate s = true -> quote_plus s [] = None.
Proof.
  intros H. assert (Hq : forall safe, quote s safe = None).
  { intros safe. unfold quote. destruct s as [|c s]; [discriminate H|].
    rewrite (encode_utf8_surrogate _ H). reflexivity. }
  unfold quote_plus. destruct (negb (char_in SPACE s)); rewrite Hq; reflexivity.
Qed.

(** An octet, as a bound and as a shift. *)
Lemma octet_iff (x : N) : (x < 256)%N <-> N.shiftr x 8 = 0%N.
Proof.
  rewrite N.shiftr_div_pow2. change (2 ^ 8)%N with 256%N.
  split; intros H.
  - apply N.div_small. exact H.
  - apply N.div_small_iff in H; [exact H | discriminate].
Qed.

Lemma lor_octet (a b : N) : (a < 256)%N -> (b < 256)%N -> (N.lor a b < 256)%N.
Proof.
  rewrite !octet_iff, N.shiftr_lor. intros -> ->. reflexivity.
Qed.

Lemma land_3F_octet (x : N) : (N.land x 0x3F < 256)%N.
Proof.
  change 0x3F%N with (N.ones 6). rewrite N.land_ones.
  apply N.lt_trans with (2 ^ 6)%N; [apply N.mod_lt; discriminate | reflexivity].
Qed.

Lemma shiftr_octet (c n : N) : (c < 2 ^ n * 256)%N -> (N.shiftr c n < 256)%N.
Proof.
  intros Hc. rewrite N.shiftr_div_pow2.
  apply N.Div0.div_lt_upper_bound. exact Hc.
Qed.

Lemma Some_eq {A : Type} (x y : A) : Some x = Some y -> x = y.
Proof. intros H. congruence. Qed.

Lemma utf8_char_octets (c : N) (bs : bytes) :
  utf8_char c = Some bs -> Forall (fun b => (b < 256)%N) bs.
Proof.
  unfold utf8_char.
  destruct (N.ltb_spec c 0x80) as [H1|H1].
  { intros H. apply Some_eq in H. subst bs. repeat constructor. lia. }
  destruct (N.ltb_spec c 0x800) as [H2|H2].
  { intros H. apply Some_eq in H. subst bs.
    repeat constructor; apply lor_octet; try reflexivity; try apply land_3F_octet.
    apply shiftr_octet. simpl. lia. }
  destruct (N.leb 0xD800 c && N.leb c 0xDFFF); [discriminate|].
  destruct (N.ltb_spec c 0x10000) as [H3|H3].
  { intros H. apply Some_eq in H. subst bs.
    repeat constructor; apply lor_octet; try reflexivity; try apply land_3F_octet;
      apply shiftr_octet; simpl; lia. }
  destruct (N.ltb_spec c 0x110000) as [H4|H4]; [|discriminate].
  intros H. apply Some_eq in H. subst bs.
  repeat constructor; apply lor_octet; try reflexivity; try apply land_3F_octet;
    apply shiftr_octet; simpl; lia.
Qed.

Lemma encode_utf8_octets (s : str) (bs : bytes) :
  encode_utf8 s = Some bs -> Forall (fun b => (b < 256)%N) bs.
Proof.
  revert bs. induction s as [|c s IH]; simpl; intros bs H.
  - injection H as <-. constructor.
  - destruct (utf8_char c) as [b|] eqn:Hc; [|discriminate].
    destruct (encode_utf8 s) as [bs'|]; [|discriminate].
    injection H as <-. apply Forall_app. split.
    + apply (utf8_char_octets _ Hc).
    + apply IH. reflexivity.
Qed.

Lemma HEX_DIGIT_safe (d : N) : (d < 16)%N -> char_in (HEX_DIGIT d) ALWAYS_SAFE = true.
Proof.
  intros H.
  assert (Hn : (N.to_nat d < 16)%nat) by lia.
  unfold HEX_DIGIT. generalize dependent (N.to_nat d). intros n Hn.
  do 16 (destruct n as [|n]; [reflexivity|]). lia.
Qed.

(** What [quote_from_bytes] writes: safe characters and escapes. *)
Lemma quote_from_bytes_chars (bs : bytes) (safe : str) :
  Forall (fun b => (b < 256)%N) bs ->
  forallb (fun c => char_in c (ALWAYS_SAFE ++ filter (fun c => N.ltb c 128) safe)
                    || N.eqb c 37)
          (quote_from_bytes bs safe) = true.
Proof.
  unfold quote_from_bytes.
  induction 1 as [|b bs Hb _ IH]; [reflexivity|].
  cbn [flat_map]. rewrite forallb_app, IH, andb_true_r.
  destruct (char_in b (ALWAYS_SAFE ++ filter (fun c => N.ltb c 128) safe)) eqn:Hsafe.
  - cbn [forallb]. rewrite Hsafe. reflexivity.
  - cbn [forallb]. rewrite N.eqb_refl, orb_true_r.
    unfold char_in at 1 2. rewrite !existsb_app.
    fold (char_in (HEX_DIGIT (b / 16)) ALWAYS_SAFE).
    fold (char_in (HEX_DIGIT (b mod 16)) ALWAYS_SAFE).
    rewrite !HEX_DIGIT_safe; [reflexivity | |].
    + apply N.mod_lt. discriminate.
    + apply N.Div0.div_lt_upper_bound. exact Hb.
Qed.

(** The value [urlencode] writes holds unreserved characters, percent
    escapes and plus signs only. *)
Lemma quote_plus_query_safe (s q : str) :
  quote_plus s [] = Some q -> forallb query_safe q = true.
Proof.
  unfold quote_plus, quote.
  destruct (negb (char_in SPACE s)).
  - destruct s as [|c s]; [intros H; injection H as <-; reflexivity|].
    destruct (encode_utf8 (c :: s)) as [bs|] eqn:Hbs; [|discriminate].
    intros H; injection H as <-.
    pose proof (quote_from_bytes_chars [] (encode_utf8_octets _ Hbs)) as Hq.
    rewrite forallb_forall in *. intros x Hx. specialize (Hq x Hx).
    cbn [filter] in Hq. rewrite app_nil_r in Hq.
    unfold query_safe, char_in. rewrite existsb_app.
    apply orb_true_iff in Hq as [Hq | Hq].
    + fold (char_in x ALWAYS_SAFE). rewrite Hq. reflexivity.
    + simpl. rewrite Hq, orb_true_r. reflexivity.
  - destruct s as [|c s]; [intros H; injection H as <-; reflexivity|].
    destruct (encode_utf8 (c :: s)) as [bs|] eqn:Hbs; [|discriminate].
    intros H; injection H as <-.
    pose proof (quote_from_bytes_chars ([] ++ [SPACE]) (encode_utf8_octets _ Hbs))
      as Hq.
    unfold replace_char. rewrite forallb_forall in *.
    intros x Hx. apply in_map_iff in Hx as (y & <- & Hy).
    specialize (Hq y Hy).
    destruct (N.eqb_spec y SPACE) as [->|Hne]; [reflexivity|].
    unfold query_safe, char_in. rewrite existsb_app.
    apply orb_true_iff in Hq as [Hq | Hq].
    + unfold char_in in Hq. rewrite existsb_app in Hq.
      apply orb_true_iff in Hq as [Hq | Hq]; [rewrite Hq; reflexivity|].
      simpl in Hq. rewrite orb_false_r in Hq. apply N.eqb_eq in Hq.
      congruence.
    + simpl. rewrite Hq, orb_true_r. reflexivity.
Qed.

Section TickersArguments.

Context {lib : PyLib}.

(** X10.  [tickers] with a list that holds anything but strings raises
    [TypeError] and sends nothing. *)
Theorem tickers_rejects_non_string_item (self : KunaAPI) (items : list value)
    (w : World) :
  existsb (fun v => negb (is_VStr v)) items = true ->
  tickers self (VList items) w = ([], inl TypeError).
Proof.
  intros H. unfold tickers. run. rewrite (strings_of_non_string _ H).
  reflexivity.
Qed.

(** X11.  [tickers] with a string that holds a surrogate code point
    raises [UnicodeEncodeError] when the query string is built, and sends
    nothing. *)
Theorem tickers_rejects_surrogate (self : KunaAPI) (s : str) (w : World) :
  existsb is_surrogate s = true ->
  tickers self (VStr s) w = ([], inl UnicodeEncodeError).
Proof.
  intros H. unfold tickers. run. rewrite _request_run. simpl nonempty.
  cbv iota. unfold urlencode, urlencode_pairs.
  rewrite (quote_plus_surrogate _ H).
  destruct (quote_plus (py "symbols") []); reflexivity.
Qed.

(** X12.  Whatever [tickers] is given, the URL it sends is the tickers
    path followed by [?symbols=] and a value made of unreserved
    characters, percent escapes and plus signs: no character of a symbol
    can end the value or start another parameter. *)
Theorem tickers_query_is_escaped (self : KunaAPI) (symbols : value) (w : World)
    (req : Request) :
  In req (requests (events (tickers self symbols) w)) ->
  exists q,
    req_url req = endpoint self ++ prefix self ++ py "/tickers?symbols=" ++ q /\
    forallb query_safe q = true.
Proof.
  assert (Hsent : forall v,
             In req (requests (fst (_request self (py "/tickers")
                                      [(py "symbols", v)] (VDict []) false w))) ->
             exists q,
               req_url req
               = endpoint self ++ prefix self ++ py "/tickers?symbols=" ++ q /\
               forallb query_safe q = true).
  { intros v. rewrite _request_run. simpl nonempty. cbv iota.
    unfold urlencode, urlencode_pairs.
    change (quote_plus (py "symbols") []) with (Some (py "symbols")).
    destruct (quote_plus v []) as [q|] eqn:Hq; [|intros []].
    cbn [option_map join fst requests flat_map app In]. intros [<- | []].
    exists q. split; [reflexivity|]. apply (quote_plus_query_safe _ Hq). }
  assert (Hrun : forall args,
             fst (let '(l', r) := _request self (py "/tickers") args (VDict []) false w
                  in (([] : list event) ++ l', r))
             = fst (_request self (py "/tickers") args (VDict []) false w)).
  { intros args. destruct (_request self _ args (VDict []) false w). reflexivity. }
  unfold events, tickers.
  destruct symbols as [| b | n | f | s | items | d]; run;
    try (rewrite Hrun; apply Hsent).
  destruct (strings_of items) as [e|parts]; run; [intros []|].
  rewrite Hrun. apply Hsent.
Qed.

End TickersArguments.

Lemma tickers_rejects_non_string_item_witness :
  tickers api_no_keys (VList [VStr (py "btcuah"); VInt 7]) (world_ok (py "[]"))
  = ([], inl TypeError).
Proof.
  apply tickers_rejects_non_string_item. reflexivity.
Defined.

Lemma tickers_rejects_surrogate_witness :
  tickers api_no_keys (VStr (py "btc" ++ [0xD800%N])) (world_ok (py "[]"))
  = ([], inl UnicodeEncodeError).
Proof.
  apply tickers_rejects_surrogate. reflexivity.
Defined.

Lemma tickers_query_is_escaped_witness :
  exists q,
    req_url (hd (GET api_no_keys [])
                (requests (events (tickers api_no_keys (VStr (py "a&b=c d")))
                                  (world_ok (py "[]")))))
    = endpoint api_no_keys ++ prefix api_no_keys ++ py "/tickers?symbols=" ++ q /\
    forallb query_safe q = true.
Proof.
  apply (tickers_query_is_escaped api_no_keys (VStr (py "a&b=c d"))
           (world_ok (py "[]"))).
  vm_compute. left. reflexivity.
Defined.

(** The ampersand, the equals sign and the space of a symbol are
    escaped. *)
Example tickers_ampersand :
  urls (events (tickers api_no_keys (VStr (py "a&b=c d"))) (world_ok (py "[]")))
  = [py "https://api.kuna.io/v3/tickers?symbols=a%26b%3Dc+d"].
Proof. vm_compute. reflexivity. Qed.
